(** * IOFirebase: the user-data sync adapter of the I/O web app

    A shallow embedding of [src/app/scripts/helper/firebase.js] (class
    [IOFirebase]) and the properties its specification states about it.

    The class is a thin adapter over the Firebase realtime-database SDK.  The
    SDK, the [crc32] helper, [debugLog] and the analytics sink are external
    collaborators: the adapter's methods are embedded line by line, and the
    collaborators are represented by the small interface the adapter uses
    (a table of shards holding credentials, listeners and data, plus a log
    of every call the adapter issues, in program order).

    Numbers: timestamps and clock offsets are JavaScript numbers holding
    integral millisecond counts far below 2^53, where double arithmetic is
    exact; they are embedded as [Z].  [NaN] is represented by [None] where
    the code can produce it ([parseInt]). *)

From Stdlib Require Import ZArith String Ascii List Lia Bool.
From stdpp Require Import gmap strings list fin_maps.

Local Open Scope string_scope.
Local Open Scope list_scope.
Local Open Scope Z_scope.

(** ** JavaScript values *)

(** The values the adapter handles.  An object used as a dictionary (the
    [value] argument of a write, the children of a database location) is a
    finite map from property names to values. *)
#[warnings="-register-all"] Inductive JsVal : Type :=
| JUndefined
| JNull
| JBool (b : bool)
| JNum (n : Z)
| JStr (s : string)
| JServerTimestamp                 (* Firebase.ServerValue.TIMESTAMP *)
| JPromise (id : nat)              (* completion signal of write number [id] *)
| JObj (props : gmap string JsVal).

(** ToBoolean, as used by [if (e)], [e ? a : b] and [a && b]. *)
Definition truthy (v : JsVal) : bool :=
  match v with
  | JUndefined | JNull => false
  | JBool b => b
  | JNum n => negb (n =? 0)
  | JStr s => negb (String.eqb s EmptyString)
  | JServerTimestamp | JPromise _ | JObj _ => true
  end.

Definition is_boolean (v : JsVal) : bool :=
  match v with JBool _ => true | _ => false end.

(** An optional numeric parameter ([@param {number=}]): omitted is
    [undefined]. *)
Definition of_optional_number (t : option Z) : JsVal :=
  match t with Some n => JNum n | None => JUndefined end.

(** The result of [_selectShard]: a URL, or [undefined]. *)
Definition of_optional_string (s : option string) : JsVal :=
  match s with Some u => JStr u | None => JUndefined end.

(** ** [parseInt(string, 16)], [%] and array indexing *)

Module Js.

Definition is_whitespace (c : ascii) : bool :=
  let n := N_of_ascii c in
  ((9 <=? n) && (n <=? 13))%N || (n =? 32)%N.

Fixpoint trim_left (s : string) : string :=
  match s with
  | String c s' => if is_whitespace c then trim_left s' else s
  | EmptyString => s
  end.

Definition hex_digit (c : ascii) : option Z :=
  let n := Z.of_N (N_of_ascii c) in
  if (48 <=? n) && (n <=? 57) then Some (n - 48)
  else if (97 <=? n) && (n <=? 102) then Some (n - 87)
  else if (65 <=? n) && (n <=? 70) then Some (n - 55)
  else None.

(** The longest prefix of hexadecimal digits, read in base 16; [acc] is
    [None] until a first digit has been read. *)
Fixpoint parse_hex_digits (s : string) (acc : option Z) : option Z :=
  match s with
  | String c s' =>
      match hex_digit c with
      | Some d => parse_hex_digits s' (Some (16 * default 0 acc + d))
      | None => acc
      end
  | EmptyString => acc
  end.

Definition strip_sign (s : string) : Z * string :=
  match s with
  | String "-" s' => (-1, s')
  | String "+" s' => (1, s')
  | _ => (1, s)
  end.

Definition strip_0x (s : string) : string :=
  match s with
  | String "0" (String "x" s') => s'
  | String "0" (String "X" s') => s'
  | _ => s
  end.

(** [parseInt(s, 16)]: leading white space, an optional sign and an
    optional [0x] are skipped, then the longest run of digits is read;
    [None] is [NaN] (no digit). *)
Definition parseInt16 (s : string) : option Z :=
  let '(sign, rest) := strip_sign (trim_left s) in
  match parse_hex_digits (strip_0x rest) None with
  | Some n => Some (sign * n)
  | None => None
  end.

(** [a % b] on numbers: [NaN] when [a] is [NaN] or [b] is zero, otherwise
    the remainder of the truncated division (the sign of the dividend). *)
Definition rem (a : option Z) (b : Z) : option Z :=
  match a with
  | Some x => if b =? 0 then None else Some (Z.rem x b)
  | None => None
  end.

(** [arr[i]]: [undefined] ([None]) unless [i] is an index of [arr]. *)
Definition index {A} (arr : list A) (i : option Z) : option A :=
  match i with
  | Some z => if z <? 0 then None else arr !! Z.to_nat z
  | None => None
  end.

Fixpoint all_hex (s : string) : bool :=
match s with
| String c s' => match hex_digit c with Some _ => all_hex s' | None => false end
| EmptyString => true
end.

End Js.

(** ** Shard selection *)

(** What a CRC32 helper that renders its 32-bit checksum in hexadecimal
    returns: one to eight hexadecimal digits.  Such a digest is below 2^32,
    so that [parseInt] and [%] are exact on it. *)
Definition is_crc32_digest (s : string) : bool :=
  (1 <=? String.length s)%nat && (String.length s <=? 8)%nat && Js.all_hex s.

(** The list of Firebase Database shards, as configured in the source. *)
Definition FIREBASE_DATABASES_URL : list string :=
  ["https://iowa-2016-dev.firebaseio.com/"].

Section Shards.

(** The external CRC32 helper: it maps the user ID to a digest string,
    which the adapter parses in radix 16. *)
Variable crc32 : string -> string.

(** The configured list of shards ([IOFirebase.FIREBASE_DATABASES_URL]). *)
Variable databases : list string.

Definition shardIndex (userId : string) : option Z :=
  Js.rem (Js.parseInt16 (crc32 userId)) (Z.of_nat (length databases)).

(** [_selectShard(userId)]; [None] is [undefined]. *)
Definition _selectShard (userId : string) : option string :=
  Js.index databases (shardIndex userId).

End Shards.

(** ** The SDK as the adapter sees it *)

(** What [getAuth()] returns when the connection holds credentials. *)
Record AuthData : Type := { uid : string }.

Definition authData_val (a : AuthData) : JsVal :=
  JObj {[ "uid" := JStr (uid a) ]}.

(** The error object the SDK hands to a completion callback. *)
Record FirebaseError : Type := { code : string }.

Definition error_val (e : FirebaseError) : JsVal :=
  JObj {[ "code" := JStr (code e) ]}.

Inductive ChildEvent : Type := child_added | child_changed | child_removed.

Definition ChildEvent_eqb (a b : ChildEvent) : bool :=
  match a, b with
  | child_added, child_added
  | child_changed, child_changed
  | child_removed, child_removed => true
  | _, _ => false
  end.

Record DataSnapshot : Type := { snap_key : string; snap_val : JsVal }.

(** An update callback supplied by the UI code ([IOFirebase~updateCallback]),
    known by its identity. *)
Definition Callback : Type := nat.

(** The functions the adapter hands to the SDK, each named after the place
    it is written at, with the variables it captures. *)
Inductive Handler : Type :=
| SnapshotKeyVal (callback : Callback)
    (* dataSnapshot => callback(dataSnapshot.key(), dataSnapshot.val()) *)
| SnapshotKeyNull (callback : Callback).
    (* dataSnapshot => callback(dataSnapshot.key(), null) *)

Inductive AuthCallback : Type :=
| AuthCb (firebaseShardUrl : option string).   (* error => {...} in auth *)

Inductive OffsetCallback : Type :=
| OffsetCb.                                (* snap => {...} in _updateClockOffset *)

Inductive WriteCallback : Type :=
| WriteCb (userId attribute : string) (value : JsVal).
    (* error => {...} in _updateFirebaseUserData and _setFirebaseUserData *)

(** Every effect of the adapter, in program order: the calls it makes to
    its collaborators and the assignments to its two fields. *)
Inductive Event : Type :=
| E_assign_firebaseRef (r : option string)
| E_assign_clockOffset (o : Z)
| E_new_Firebase (url : string)
| E_authWithOAuthToken (url provider token : string)
| E_unauth (url : string)
| E_on (url path : string) (ev : ChildEvent) (h : Handler)
| E_off (url path : string)
| E_once_value (url path : string)
| E_update (url path : string) (value : gmap string JsVal)
| E_set (url path : string) (value : JsVal)
| E_onDisconnect_set (url path : string) (value : JsVal)
| E_goOffline
| E_goOnline
| E_console_log (args : list JsVal)
| E_debugLog (args : list JsVal)
| E_trackError (location : string) (error : JsVal)
| E_trackEvent (category action : string) (label : JsVal)
| E_callback (callback : Callback) (key : string) (value : JsVal).

(** One database shard: the credentials of the connection, the callbacks
    the SDK holds for it, the data at each location and the backend's
    clock. *)
Record Shard : Type := {
  sh_auth : option AuthData;
  sh_pendingAuth : list AuthCallback;
  sh_listeners : list (string * ChildEvent * Handler);
  sh_once : list (string * OffsetCallback);
  sh_pendingWrites : list (nat * WriteCallback);
  sh_data : gmap string JsVal;
  sh_onDisconnect : list (string * JsVal);
  sh_now : Z
}.

Definition empty_shard : Shard :=
  {| sh_auth := None; sh_pendingAuth := []; sh_listeners := []; sh_once := [];
     sh_pendingWrites := []; sh_data := ∅; sh_onDisconnect := []; sh_now := 0 |}.

Definition set_sh_auth (a : option AuthData) (sh : Shard) : Shard :=
  {| sh_auth := a; sh_pendingAuth := sh_pendingAuth sh;
     sh_listeners := sh_listeners sh; sh_once := sh_once sh;
     sh_pendingWrites := sh_pendingWrites sh; sh_data := sh_data sh;
     sh_onDisconnect := sh_onDisconnect sh; sh_now := sh_now sh |}.

Definition set_sh_pendingAuth (l : list AuthCallback) (sh : Shard) : Shard :=
  {| sh_auth := sh_auth sh; sh_pendingAuth := l;
     sh_listeners := sh_listeners sh; sh_once := sh_once sh;
     sh_pendingWrites := sh_pendingWrites sh; sh_data := sh_data sh;
     sh_onDisconnect := sh_onDisconnect sh; sh_now := sh_now sh |}.

Definition set_sh_listeners (l : list (string * ChildEvent * Handler))
    (sh : Shard) : Shard :=
  {| sh_auth := sh_auth sh; sh_pendingAuth := sh_pendingAuth sh;
     sh_listeners := l; sh_once := sh_once sh;
     sh_pendingWrites := sh_pendingWrites sh; sh_data := sh_data sh;
     sh_onDisconnect := sh_onDisconnect sh; sh_now := sh_now sh |}.

Definition set_sh_once (l : list (string * OffsetCallback)) (sh : Shard) : Shard :=
  {| sh_auth := sh_auth sh; sh_pendingAuth := sh_pendingAuth sh;
     sh_listeners := sh_listeners sh; sh_once := l;
     sh_pendingWrites := sh_pendingWrites sh; sh_data := sh_data sh;
     sh_onDisconnect := sh_onDisconnect sh; sh_now := sh_now sh |}.

Definition set_sh_pendingWrites (l : list (nat * WriteCallback)) (sh : Shard) : Shard :=
  {| sh_auth := sh_auth sh; sh_pendingAuth := sh_pendingAuth sh;
     sh_listeners := sh_listeners sh; sh_once := sh_once sh;
     sh_pendingWrites := l; sh_data := sh_data sh;
     sh_onDisconnect := sh_onDisconnect sh; sh_now := sh_now sh |}.

Definition set_sh_data (d : gmap string JsVal) (sh : Shard) : Shard :=
  {| sh_auth := sh_auth sh; sh_pendingAuth := sh_pendingAuth sh;
     sh_listeners := sh_listeners sh; sh_once := sh_once sh;
     sh_pendingWrites := sh_pendingWrites sh; sh_data := d;
     sh_onDisconnect := sh_onDisconnect sh; sh_now := sh_now sh |}.

Definition set_sh_onDisconnect (l : list (string * JsVal)) (sh : Shard) : Shard :=
  {| sh_auth := sh_auth sh; sh_pendingAuth := sh_pendingAuth sh;
     sh_listeners := sh_listeners sh; sh_once := sh_once sh;
     sh_pendingWrites := sh_pendingWrites sh; sh_data := sh_data sh;
     sh_onDisconnect := l; sh_now := sh_now sh |}.

(** The singleton's two fields, the shards by URL, the number of writes
    issued so far and the log of effects. *)
Record World : Type := {
  firebaseRef : option string;     (* this.firebaseRef, a reference by its URL *)
  clockOffset : Z;                 (* this.clockOffset *)
  shards : gmap string Shard;
  writes : nat;
  visibilityListener : bool;       (* the constructor's 'visibilitychange' listener *)
  trace : list Event
}.

(** [constructor()]: no reference, offset zero; the visibility listener is
    attached when the document has a [hidden] property. *)
Definition constructor (document_hidden_defined : bool) : World :=
  {| firebaseRef := None; clockOffset := 0; shards := ∅; writes := 0;
     visibilityListener := document_hidden_defined; trace := [] |}.

Definition shard (w : World) (url : string) : Shard :=
  default empty_shard (shards w !! url).

(** ** Methods run on the world and may throw *)

Inductive Exception : Type :=
| TypeError (what : string)
| SdkError (what : string).

Inductive Outcome (A : Type) : Type :=
| Returns (a : A)
| Throws (e : Exception).
Arguments Returns {A} a.
Arguments Throws {A} e.

Definition M (A : Type) : Type := World -> Outcome A * World.

Definition ret {A} (a : A) : M A := fun w => (Returns a, w).

Definition throw {A} (e : Exception) : M A := fun w => (Throws e, w).

Definition bind {A B} (m : M A) (k : A -> M B) : M B :=
  fun w =>
    match m w with
    | (Returns a, w') => k a w'
    | (Throws e, w') => (Throws e, w')
    end.

Notation "x <- m ;; k" := (bind m (fun x => k))
  (at level 100, m at next level, right associativity).
Notation "m ;; k" := (bind m (fun _ => k))
  (at level 100, right associativity).

Definition gets {A} (f : World -> A) : M A := fun w => (Returns (f w), w).

(** The changes a statement makes to the world. *)
Definition logged (es : list Event) (w : World) : World :=
  {| firebaseRef := firebaseRef w; clockOffset := clockOffset w;
     shards := shards w; writes := writes w;
     visibilityListener := visibilityListener w; trace := trace w ++ es |}.

Definition with_firebaseRef (r : option string) (w : World) : World :=
  {| firebaseRef := r; clockOffset := clockOffset w;
     shards := shards w; writes := writes w;
     visibilityListener := visibilityListener w; trace := trace w |}.

Definition with_clockOffset (o : Z) (w : World) : World :=
  {| firebaseRef := firebaseRef w; clockOffset := o;
     shards := shards w; writes := writes w;
     visibilityListener := visibilityListener w; trace := trace w |}.

Definition with_shard (url : string) (f : Shard -> Shard) (w : World) : World :=
  {| firebaseRef := firebaseRef w; clockOffset := clockOffset w;
     shards := <[url := f (shard w url)]> (shards w); writes := writes w;
     visibilityListener := visibilityListener w; trace := trace w |}.

Definition with_writes (n : nat) (w : World) : World :=
  {| firebaseRef := firebaseRef w; clockOffset := clockOffset w;
     shards := shards w; writes := n;
     visibilityListener := visibilityListener w; trace := trace w |}.

Definition emit (e : Event) : M unit :=
  fun w => (Returns tt, logged [e] w).

(** [this.firebaseRef = r] *)
Definition set_firebaseRef (r : option string) : M unit :=
  fun w => (Returns tt, logged [E_assign_firebaseRef r] (with_firebaseRef r w)).

(** [this.clockOffset = o] *)
Definition set_clockOffset (o : Z) : M unit :=
  fun w => (Returns tt, logged [E_assign_clockOffset o] (with_clockOffset o w)).

Definition modify_shard (url : string) (f : Shard -> Shard) : M unit :=
  fun w => (Returns tt, with_shard url f w).

Definition next_write : M nat :=
  fun w => (Returns (writes w), with_writes (S (writes w)) w).

(** [this.firebaseRef.m(...)]: dereferencing [null] throws. *)
Definition deref_firebaseRef : M string :=
  fun w =>
    match firebaseRef w with
    | Some ref => (Returns ref, w)
    | None => (Throws (TypeError "this.firebaseRef is null"), w)
    end.

Definition debugLog (args : list JsVal) : M unit := emit (E_debugLog args).
Definition console_log (args : list JsVal) : M unit := emit (E_console_log args).

(** ** The SDK calls the adapter makes *)

Module Sdk.

(** Modelled from the spec: the SDK is an external collaborator, described
    by the calls the adapter makes on it.  [new Firebase(url)] opens a
    connection to a shard; the constructor rejects a missing URL. *)
Definition new (url : option string) : M string :=
  match url with
  | Some u => emit (E_new_Firebase u) ;; ret u
  | None => throw (SdkError "new Firebase: not a database URL")
  end.

(** Modelled from the spec: [ref.getAuth()] gives the backend credentials
    the connection currently holds, if any; it is a local read. *)
Definition getAuth (ref : string) : M (option AuthData) :=
  gets (fun w => sh_auth (shard w ref)).

(** Modelled from the spec: [ref.authWithOAuthToken(provider, token,
    onComplete)] starts the exchange of the access token for backend
    credentials; it completes later, on the event loop. *)
Definition authWithOAuthToken (ref provider token : string)
    (onComplete : AuthCallback) : M unit :=
  emit (E_authWithOAuthToken ref provider token) ;;
  modify_shard ref (fun sh => set_sh_pendingAuth (sh_pendingAuth sh ++ [onComplete]) sh).

(** Modelled from the spec: [ref.unauth()] revokes the backend credentials
    on the connection. *)
Definition unauth (ref : string) : M unit :=
  emit (E_unauth ref) ;;
  modify_shard ref (set_sh_auth None).

(** Modelled from the spec: [ref.child(path).on(ev, h)] attaches an event
    handler on the location; registrations are independent, none replaces
    another. *)
Definition on (ref path : string) (ev : ChildEvent) (h : Handler) : M unit :=
  emit (E_on ref path ev h) ;;
  modify_shard ref (fun sh => set_sh_listeners (sh_listeners sh ++ [(path, ev, h)]) sh).

(** Modelled from the spec: [ref.child(path).off()] detaches the live
    subscriptions of the location. *)
Definition off (ref path : string) : M unit :=
  emit (E_off ref path) ;;
  modify_shard ref (fun sh =>
    set_sh_listeners
      (filter (fun l => negb (String.eqb (fst (fst l)) path)) (sh_listeners sh)) sh).

(** Modelled from the spec: [ref.child(path).once('value', h)] reads the
    value of the location once. *)
Definition once_value (ref path : string) (h : OffsetCallback) : M unit :=
  emit (E_once_value ref path) ;;
  modify_shard ref (fun sh => set_sh_once (sh_once sh ++ [(path, h)]) sh).

(** Modelled from the spec: for the [ServerValue.TIMESTAMP] placeholder the
    backend assigns its own canonical "now" at write time. *)
Fixpoint resolve (now : Z) (v : JsVal) : JsVal :=
  match v with
  | JServerTimestamp => JNum now
  | JObj props => JObj (resolve now <$> props)
  | _ => v
  end.

(** The children of a location (none when it holds no object). *)
Definition children (v : option JsVal) : gmap string JsVal :=
  match v with
  | Some (JObj props) => props
  | _ => ∅
  end.

(** Modelled from the spec: [ref.child(path).update(value, onComplete)] is
    a merge-write, a partial update that changes only the specified keys and
    leaves sibling keys in the same collection unchanged; it returns the
    completion signal of the write. *)
Definition update (ref path : string) (value : gmap string JsVal)
    (onComplete : WriteCallback) : M JsVal :=
  id <- next_write ;;
  emit (E_update ref path value) ;;
  modify_shard ref (fun sh =>
    set_sh_pendingWrites (sh_pendingWrites sh ++ [(id, onComplete)])
      (set_sh_data
         (<[path := JObj ((resolve (sh_now sh) <$> value)
                            ∪ children (sh_data sh !! path))]> (sh_data sh))
         sh)) ;;
  ret (JPromise id).

(** Modelled from the spec: [ref.child(path).set(value, onComplete)]
    replaces what the location holds. *)
Definition set (ref path : string) (value : JsVal)
    (onComplete : WriteCallback) : M JsVal :=
  id <- next_write ;;
  emit (E_set ref path value) ;;
  modify_shard ref (fun sh =>
    set_sh_pendingWrites (sh_pendingWrites sh ++ [(id, onComplete)])
      (set_sh_data (<[path := resolve (sh_now sh) value]> (sh_data sh)) sh)) ;;
  ret (JPromise id).

(** Modelled from the spec: [ref.child(path).onDisconnect().set(value)]
    arranges for the backend to record the value when the client
    disconnects. *)
Definition onDisconnect_set (ref path : string) (value : JsVal) : M unit :=
  emit (E_onDisconnect_set ref path value) ;;
  modify_shard ref (fun sh =>
    set_sh_onDisconnect (sh_onDisconnect sh ++ [(path, value)]) sh).

Definition goOffline : M unit := emit E_goOffline.
Definition goOnline : M unit := emit E_goOnline.

End Sdk.

Module Analytics.
Definition trackError (location : string) (error : JsVal) : M unit :=
  emit (E_trackError location error).
Definition trackEvent (category action : string) (label : JsVal) : M unit :=
  emit (E_trackEvent category action label).
End Analytics.

(** ** The class [IOFirebase] *)

(** [this.firebaseRef.getAuth().uid] *)
Definition getAuth_uid : M string :=
  ref <- deref_firebaseRef ;;
  a <- Sdk.getAuth ref ;;
  match a with
  | Some d => ret (uid d)
  | None => throw (TypeError "this.firebaseRef.getAuth() is null")
  end.

(** [`users/${userId}/${attribute}`] *)
Definition user_path (userId attribute : string) : string :=
  "users/" +:+ userId +:+ "/" +:+ attribute.

(** [isAuthed()]: [this.firebaseRef && this.firebaseRef.getAuth()]. *)
Definition isAuthed : M JsVal :=
  fb <- gets firebaseRef ;;
  match fb with
  | None => ret JNull
  | Some ref =>
      a <- Sdk.getAuth ref ;;
      ret (match a with Some d => authData_val d | None => JNull end)
  end.



(** [_updateFirebaseUserData(attribute, value)] *)
Definition _updateFirebaseUserData (attribute : string)
    (value : gmap string JsVal) : M JsVal :=
  authed <- isAuthed ;;
  if truthy authed then
    userId <- getAuth_uid ;;
    ref <- deref_firebaseRef ;;
    Sdk.update ref (user_path userId attribute) value
      (WriteCb userId attribute (JObj value))
  else
    debugLog [JStr "Trying to write to Firebase while not authorized."] ;;
    ret JUndefined.

(** [_setFirebaseUserData(attribute, value)] *)
Definition _setFirebaseUserData (attribute : string) (value : JsVal) : M JsVal :=
  authed <- isAuthed ;;
  if truthy authed then
    userId <- getAuth_uid ;;
    ref <- deref_firebaseRef ;;
    Sdk.set ref (user_path userId attribute) value (WriteCb userId attribute value)
  else
    debugLog [JStr "Trying to write to Firebase while not authorized."] ;;
    ret JUndefined.

(** [_bumpLastActivityTimestamp()] *)
Definition _bumpLastActivityTimestamp : M JsVal :=
  userId <- getAuth_uid ;;
  ref <- deref_firebaseRef ;;
  Sdk.onDisconnect_set ref (user_path userId "last_activity_timestamp")
    JServerTimestamp ;;
  _setFirebaseUserData "last_activity_timestamp" JServerTimestamp.

(** [_updateClockOffset()] *)
Definition _updateClockOffset : M unit :=
  fb <- gets firebaseRef ;;
  match fb with
  | Some ref => Sdk.once_value ref "/.info/serverTimeOffset" OffsetCb
  | None => ret tt
  end.

(** The callback handed to [once] by [_updateClockOffset]; [val] is
    [snap.val()], a number at this location. *)
Definition offset_callback (cb : OffsetCallback) (val : Z) : M unit :=
  let 'OffsetCb := cb in
  set_clockOffset val ;;
  o <- gets clockOffset ;;
  debugLog [JStr "Updated clock offset to"; JNum o; JStr "ms"].

(** The callback handed to [authWithOAuthToken] by [auth]. *)
Definition auth_callback (cb : AuthCallback) (error : JsVal) : M unit :=
  let '(AuthCb firebaseShardUrl) := cb in
  if truthy error then
    Analytics.trackError "this.firebaseRef.authWithOAuthToken(...)" error ;;
    debugLog [JStr "Login to Firebase Failed!"; error]
  else
    _bumpLastActivityTimestamp ;;
    Analytics.trackEvent "login" "success" (of_optional_string firebaseShardUrl) ;;
    debugLog [JStr "Authenticated successfully to Firebase shard";
              of_optional_string firebaseShardUrl].

Section Auth.

Variable crc32 : string -> string.
Variable databases : list string.

(** [auth(userId, accessToken)] *)
Definition auth (userId accessToken : string) : M unit :=
  let firebaseShardUrl := _selectShard crc32 databases userId in
  console_log [JStr "Chose the following Firebase Database Shard:";
               of_optional_string firebaseShardUrl] ;;
  created <- Sdk.new firebaseShardUrl ;;
  set_firebaseRef (Some created) ;;
  ref <- deref_firebaseRef ;;
  Sdk.authWithOAuthToken ref "google" accessToken (AuthCb firebaseShardUrl) ;;
  _updateClockOffset.

End Auth.

(** [unAuth()] *)
Definition unAuth : M unit :=
  fb <- gets firebaseRef ;;
  match fb with
  | Some ref =>
      userId <- getAuth_uid ;;
      Sdk.off ref (user_path userId "my_sessions") ;;
      Sdk.off ref (user_path userId "feedback") ;;
      Sdk.unauth ref ;;
      debugLog [JStr "Unauthorized Firebase"] ;;
      set_firebaseRef None
  | None => ret tt
  end.

(** [static goOffline()] and [static goOnline()] *)
Definition goOffline : M unit :=
  Sdk.goOffline ;; debugLog [JStr "Firebase went offline."].

Definition goOnline : M unit :=
  Sdk.goOnline ;; debugLog [JStr "Firebase back online!"].

(** [_registerToUpdates(attribute, callback)] *)
Definition _registerToUpdates (attribute : string) (callback : Callback) : M unit :=
  authed <- isAuthed ;;
  if truthy authed then
    userId <- getAuth_uid ;;
    ref <- deref_firebaseRef ;;
    let path := user_path userId attribute in
    Sdk.on ref path child_added (SnapshotKeyVal callback) ;;
    Sdk.on ref path child_changed (SnapshotKeyVal callback) ;;
    Sdk.on ref path child_removed (SnapshotKeyNull callback)
  else
    debugLog [JStr "Trying to subscribe to Firebase while not authorized."].

Definition registerToSessionUpdates (callback : Callback) : M unit :=
  _registerToUpdates "my_sessions" callback.

Definition registerToFeedbackUpdates (callback : Callback) : M unit :=
  _registerToUpdates "feedback" callback.

(** [timestamp ? timestamp + this.clockOffset : Firebase.ServerValue.TIMESTAMP],
    the expression shared by the three timestamped writes. *)
Definition write_timestamp (timestamp : option Z) : M JsVal :=
  o <- gets clockOffset ;;
  ret (match timestamp with
       | Some t => if truthy (JNum t) then JNum (t + o) else JServerTimestamp
       | None => JServerTimestamp            (* undefined is falsy *)
       end).

(** [toggleSession(sessionUUID, bookmarked, timestamp)] *)
Definition toggleSession (sessionUUID : string) (bookmarked : bool)
    (timestamp : option Z) : M JsVal :=
  ts <- write_timestamp timestamp ;;
  let value : gmap string JsVal :=
    <[sessionUUID := JObj (<["bookmarked" := JBool bookmarked]>
                             {[ "timestamp" := ts ]})]> ∅ in
  _updateFirebaseUserData "my_sessions" value.

(** [markSessionRated(sessionUUID, timestamp)] *)
Definition markSessionRated (sessionUUID : string) (timestamp : option Z) : M JsVal :=
  ts <- write_timestamp timestamp ;;
  let value : gmap string JsVal :=
    <[sessionUUID := JObj {[ "timestamp" := ts ]}]> ∅ in
  _updateFirebaseUserData "feedback" value.

(** [markVideoAsViewed(videoId, timestamp)] *)
Definition markVideoAsViewed (videoId : string) (timestamp : option Z) : M JsVal :=
  ts <- write_timestamp timestamp ;;
  let value : gmap string JsVal := <[videoId := ts]> ∅ in
  _updateFirebaseUserData "viewed_videos" value.

(** [addGcmId(gcmId)] *)
Definition addGcmId (gcmId : string) : M JsVal :=
  let value : gmap string JsVal := <[gcmId := JBool true]> ∅ in
  _updateFirebaseUserData "gcm_ids" value.

(** The constructor's listener:
    [() => document.hidden ? IOFirebase.goOffline() : IOFirebase.goOnline()]. *)
Definition on_visibilitychange (document_hidden : bool) : M unit :=
  fun w =>
    if visibilityListener w
    then (if document_hidden then goOffline else goOnline) w
    else (Returns tt, w).

(** The three functions handed to [ref.on] by [_registerToUpdates]. *)
Definition run_handler (h : Handler) (dataSnapshot : DataSnapshot) : M unit :=
  match h with
  | SnapshotKeyVal callback =>
      emit (E_callback callback (snap_key dataSnapshot) (snap_val dataSnapshot))
  | SnapshotKeyNull callback =>
      emit (E_callback callback (snap_key dataSnapshot) JNull)
  end.

(** ** The SDK calling back *)

Fixpoint for_each {A} (f : A -> M unit) (l : list A) : M unit :=
  match l with
  | [] => ret tt
  | a :: l' => f a ;; for_each f l'
  end.

Module Backend.

(** Modelled from the spec: the oldest credential exchange of a shard
    completes, with credentials, which the connection then holds, or with
    an error; the completion callback is called. *)
Definition complete_auth (url : string) (result : AuthData + FirebaseError) : M unit :=
  pending <- gets (fun w => sh_pendingAuth (shard w url)) ;;
  match pending with
  | onComplete :: rest =>
      modify_shard url (set_sh_pendingAuth rest) ;;
      match result with
      | inl a => modify_shard url (set_sh_auth (Some a)) ;; auth_callback onComplete JNull
      | inr e => auth_callback onComplete (error_val e)
      end
  | [] => ret tt
  end.

(** Modelled from the spec: the value of a location arrives; every
    one-shot reader of the location is called with it, once, and dropped. *)
Definition deliver_value (url path : string) (val : Z) : M unit :=
  readers <- gets (fun w => sh_once (shard w url)) ;;
  modify_shard url
    (set_sh_once (filter (fun r => negb (String.eqb (fst r) path)) readers)) ;;
  for_each (fun r => offset_callback (snd r) val)
    (filter (fun r => String.eqb (fst r) path) readers).


(** The listeners attached at a location for an event, oldest first. *)
Definition listening (sh : Shard) (path : string) (ev : ChildEvent) : list Handler :=
  map snd
    (filter (fun l => String.eqb (fst (fst l)) path && ChildEvent_eqb (snd (fst l)) ev)
       (sh_listeners sh)).

(** Modelled from the spec: a child event of a location is raised; every
    handler attached there for this event is called with the snapshot. *)
Definition raise (url path : string) (ev : ChildEvent) (snap : DataSnapshot) : M unit :=
  hs <- gets (fun w => listening (shard w url) path ev) ;;
  for_each (fun h => run_handler h snap) hs.

(** Modelled from the spec: an entry of a location is deleted (by any
    client); it leaves the data and [child_removed] is raised with the
    entry's key and last value. *)
Definition delete_child (url path key : string) : M unit :=
  kids <- gets (fun w => Sdk.children (sh_data (shard w url) !! path)) ;;
  match kids !! key with
  | Some old =>
      modify_shard url (fun sh =>
        set_sh_data (<[path := JObj (delete key kids)]> (sh_data sh)) sh) ;;
      raise url path child_removed {| snap_key := key; snap_val := old |}
  | None => ret tt
  end.

End Backend.

(** The outcome of a method call. *)
Definition outcome {A} (r : Outcome A * World) : Outcome A := fst r.

(** Running a call for its final world only. *)
Definition exec {A} (m : M A) (w : World) : World := snd (m w).

(** The effects a call added to the log. *)
Definition effects {A} (m : M A) (w : World) : list Event :=
  drop (length (trace w)) (trace (exec m w)).

(** Modelled from the spec: the CRC32 hashing utility used for shard
    selection, here the IEEE 802.3 checksum (reflected polynomial) rendered
    as eight hexadecimal digits.  The adapter is stated over any helper;
    this one serves for concrete runs. *)
Module Crc32.

Fixpoint shift_xor (n : nat) (c : Z) : Z :=
  match n with
  | O => c
  | S n' =>
      shift_xor n'
        (if Z.testbit c 0
         then Z.lxor (Z.shiftr c 1) 3988292384
         else Z.shiftr c 1)
  end.

Fixpoint update (s : string) (c : Z) : Z :=
  match s with
  | String ch s' =>
      update s' (shift_xor 8 (Z.lxor c (Z.of_N (N_of_ascii ch))))
  | EmptyString => c
  end.

Definition checksum (s : string) : Z :=
  Z.lxor (update s 4294967295) 4294967295.

Definition hex_char (d : Z) : ascii :=
  ascii_of_N (Z.to_N (if d <? 10 then 48 + d else 87 + d)).

Fixpoint to_hex (digits : nat) (n : Z) (acc : string) : string :=
  match digits with
  | O => acc
  | S k => to_hex k (Z.shiftr n 4) (String (hex_char (Z.land n 15)) acc)
  end.

Definition crc32 (s : string) : string := to_hex 8 (checksum s) EmptyString.

End Crc32.

(** ** Vocabulary of the specification *)

(** The credentials behind the stored reference, if there is a reference
    and it holds any: the adapter is authenticated when there are some. *)
Definition credentials (w : World) : option AuthData :=
  match firebaseRef w with
  | Some ref => sh_auth (shard w ref)
  | None => None
  end.

(** The write time as the specification words it: [t + o] for a supplied
    local timestamp [t] and clock offset [o], the backend's own time when
    the timestamp is omitted. *)
Definition specified_timestamp (timestamp : option Z) (o : Z) : JsVal :=
  match timestamp with
  | Some t => JNum (t + o)
  | None => JServerTimestamp
  end.

(** The four mutation methods and the two subscribe methods, by name. *)
Inductive Mutation : Type :=
| ToggleSession (sessionUUID : string) (bookmarked : bool) (timestamp : option Z)
| MarkSessionRated (sessionUUID : string) (timestamp : option Z)
| MarkVideoAsViewed (videoId : string) (timestamp : option Z)
| AddGcmId (gcmId : string).

Definition mutate (m : Mutation) : M JsVal :=
  match m with
  | ToggleSession sessionUUID bookmarked timestamp =>
      toggleSession sessionUUID bookmarked timestamp
  | MarkSessionRated sessionUUID timestamp => markSessionRated sessionUUID timestamp
  | MarkVideoAsViewed videoId timestamp => markVideoAsViewed videoId timestamp
  | AddGcmId gcmId => addGcmId gcmId
  end.

Inductive Subscription : Type :=
| RegisterToSessionUpdates (callback : Callback)
| RegisterToFeedbackUpdates (callback : Callback).

Definition subscribe (s : Subscription) : M unit :=
  match s with
  | RegisterToSessionUpdates callback => registerToSessionUpdates callback
  | RegisterToFeedbackUpdates callback => registerToFeedbackUpdates callback
  end.

(** The attribute a call works on. *)
Definition mutation_attribute (m : Mutation) : string :=
  match m with
  | ToggleSession _ _ _ => "my_sessions"
  | MarkSessionRated _ _ => "feedback"
  | MarkVideoAsViewed _ _ => "viewed_videos"
  | AddGcmId _ => "gcm_ids"
  end.

Definition subscription_attribute (s : Subscription) : string :=
  match s with
  | RegisterToSessionUpdates _ => "my_sessions"
  | RegisterToFeedbackUpdates _ => "feedback"
  end.

Definition subscription_callback (s : Subscription) : Callback :=
  match s with
  | RegisterToSessionUpdates callback | RegisterToFeedbackUpdates callback => callback
  end.

(** The call a handler makes to the UI callback for a snapshot. *)
Definition handler_call (snap : DataSnapshot) (h : Handler) : Event :=
  match h with
  | SnapshotKeyVal callback => E_callback callback (snap_key snap) (snap_val snap)
  | SnapshotKeyNull callback => E_callback callback (snap_key snap) JNull
  end.

(** Calls that reach the backend: everything but logs, analytics, UI
    callbacks and the assignments to the singleton's own fields. *)
Definition is_backend_call (e : Event) : bool :=
  match e with
  | E_new_Firebase _ | E_authWithOAuthToken _ _ _ | E_unauth _
  | E_on _ _ _ _ | E_off _ _ | E_once_value _ _ | E_update _ _ _ | E_set _ _ _
  | E_onDisconnect_set _ _ _ | E_goOffline | E_goOnline => true
  | _ => false
  end.

(** ** A signed-in session, for concrete runs *)

Module Session.

Definition url : string := "https://iowa-2016-dev.firebaseio.com/".
Definition user : AuthData := {| uid := "google:1234" |}.

(** A page just loaded, then [auth] called. *)
Definition authorizing : World :=
  exec (auth Crc32.crc32 FIREBASE_DATABASES_URL "google:1234" "token") (constructor true).

(** ... then the credential exchange succeeded and the backend reported
    a clock offset of 50 ms. *)
Definition signed_in : World :=
  exec (Backend.deliver_value url "/.info/serverTimeOffset" 50)
    (exec (Backend.complete_auth url (inl user)) authorizing).

(** ... then session "abc" bookmarked. *)
Definition bookmarked : World :=
  exec (toggleSession "abc" true (Some 1000)) signed_in.

End Session.

(** A statement that leaves the clock offset and the pending one-shot
    readers of every shard as they are. *)
Definition keeps_clock {A} (m : M A) : Prop :=
  forall w,
    clockOffset (exec m w) = clockOffset w /\
    forall url, sh_once (shard (exec m w) url) = sh_once (shard w url).

(** ** Vocabulary for the data of a shard *)


(** The key a mutation method writes under. *)
Definition mutation_key (m : Mutation) : string :=
  match m with
  | ToggleSession sessionUUID _ _ => sessionUUID
  | MarkSessionRated sessionUUID _ => sessionUUID
  | MarkVideoAsViewed videoId _ => videoId
  | AddGcmId gcmId => gcmId
  end.



(** * Properties *)

(** ** Shard selection *)

Section ParseInt.

Lemma hex_digit_range c d : Js.hex_digit c = Some d -> 0 <= d < 16.
Proof.
  unfold Js.hex_digit.
  repeat match goal with |- context [if ?b then _ else _] => destruct b eqn:? end;
    intros [= <-]; lia.
Qed.

(** A hexadecimal digit is neither white space, nor a sign, nor the [x]
    of a [0x] prefix. *)
Lemma hex_digit_plain c d :
  Js.hex_digit c = Some d ->
  Js.is_whitespace c = false /\
  c <> "-"%char /\ c <> "+"%char /\ c <> "x"%char /\ c <> "X"%char.
Proof.
  destruct c as [[] [] [] [] [] [] [] []]; vm_compute; intros H;
    try discriminate H; repeat split; discriminate.
Qed.

Lemma parse_hex_digits_all_hex s :
  Js.all_hex s = true ->
  forall a, 0 <= a ->
    exists n, Js.parse_hex_digits s (Some a) = Some n /\
              a * 16 ^ Z.of_nat (String.length s) <= n
                < (a + 1) * 16 ^ Z.of_nat (String.length s).
Proof.
  induction s as [|c s IH]; intros Hs a Ha.
  - exists a. cbn. split; [reflexivity | lia].
  - cbn [Js.all_hex] in Hs. cbn [Js.parse_hex_digits String.length].
    destruct (Js.hex_digit c) as [d|] eqn:Hc; [|discriminate].
    apply hex_digit_range in Hc.
    destruct (IH Hs (16 * a + d)) as (n & Hn & Hb); [lia|].
    exists n. split; [exact Hn|].
    rewrite Nat2Z.inj_succ, Z.pow_succ_r by lia.
    assert (0 < 16 ^ Z.of_nat (String.length s)) by (apply Z.pow_pos_nonneg; lia).
    nia.
Qed.

Lemma strip_sign_plain c s :
  c <> "-"%char -> c <> "+"%char -> Js.strip_sign (String c s) = (1, String c s).
Proof.
  intros Hm Hp. unfold Js.strip_sign.
  destruct c as [[] [] [] [] [] [] [] []]; try reflexivity; congruence.
Qed.

Lemma strip_0x_all_hex s : Js.all_hex s = true -> Js.strip_0x s = s.
Proof.
  destruct s as [|c [|c' s]]; intros Hs.
  - reflexivity.
  - unfold Js.strip_0x. destruct c as [[] [] [] [] [] [] [] []]; reflexivity.
  - cbn [Js.all_hex] in Hs.
    destruct (Js.hex_digit c); [|discriminate].
    destruct (Js.hex_digit c') as [d'|] eqn:Hc'; [|discriminate].
    destruct (hex_digit_plain _ _ Hc') as (_ & _ & _ & Hx & HX).
    unfold Js.strip_0x.
    destruct c as [[] [] [] [] [] [] [] []]; try reflexivity;
      destruct c' as [[] [] [] [] [] [] [] []]; try reflexivity; congruence.
Qed.

(** On a digest, [parseInt] reads the whole string as an unsigned number
    of at most 32 bits: the embedding in [Z] is exact there. *)
Lemma parseInt16_digest s :
  is_crc32_digest s = true ->
  exists n, Js.parseInt16 s = Some n /\ 0 <= n < 2 ^ 32.
Proof.
  unfold is_crc32_digest. rewrite !andb_true_iff.
  intros [[Hlo Hhi] Hs].
  apply Nat.leb_le in Hlo, Hhi.
  destruct s as [|c s]; [cbn in Hlo; lia|].
  pose proof (strip_0x_all_hex _ Hs) as H0x.
  cbn [Js.all_hex] in Hs. cbn [String.length] in Hhi.
  destruct (Js.hex_digit c) as [d|] eqn:Hc; [|discriminate].
  destruct (hex_digit_plain _ _ Hc) as (Hw & Hm & Hp & _).
  unfold Js.parseInt16. cbn [Js.trim_left]. rewrite Hw.
  rewrite (strip_sign_plain _ _ Hm Hp), H0x.
  cbn [Js.parse_hex_digits]. rewrite Hc. apply hex_digit_range in Hc.
  destruct (parse_hex_digits_all_hex s Hs (16 * default 0 None + d)) as (n & -> & Hn);
    [cbn; lia|].
  exists n. split; [f_equal; lia|]. cbn [default] in Hn.
  assert (0 < 16 ^ Z.of_nat (String.length s)) by (apply Z.pow_pos_nonneg; lia).
  assert (16 ^ Z.of_nat (String.length s) <= 16 ^ 7) by (apply Z.pow_le_mono_r; lia).
  change (2 ^ 32) with (16 * 16 ^ 7). nia.
Qed.

End ParseInt.

Lemma shardIndex_in_range crc32 databases userId :
  (1 <= length databases)%nat ->
  is_crc32_digest (crc32 userId) = true ->
  exists i, shardIndex crc32 databases userId = Some i /\
            0 <= i < Z.of_nat (length databases).
Proof.
  intros Hlen Hd. destruct (parseInt16_digest _ Hd) as (n & Hp & Hn).
  unfold shardIndex, Js.rem. rewrite Hp.
  destruct (Z.eqb_spec (Z.of_nat (length databases)) 0) as [E|_]; [lia|].
  eexists; split; [reflexivity|].
  apply Z.rem_bound_pos; lia.
Qed.

Lemma index_in_range {A} (arr : list A) i :
  0 <= i < Z.of_nat (length arr) ->
  exists x, Js.index arr (Some i) = Some x /\ In x arr.
Proof.
  intros Hi. destruct (lookup_lt_is_Some_2 arr (Z.to_nat i)) as [x Hx]; [lia|].
  exists x. split.
  - unfold Js.index. destruct (Z.ltb_spec i 0); [lia | exact Hx].
  - apply list_elem_of_In. eapply list_elem_of_lookup_2, Hx.
Qed.

Lemma selectShard_configured crc32 databases userId :
  (1 <= length databases)%nat ->
  is_crc32_digest (crc32 userId) = true ->
  exists url, _selectShard crc32 databases userId = Some url /\ In url databases.
Proof.
  intros Hlen Hd.
  destruct (shardIndex_in_range crc32 databases userId Hlen Hd) as (i & Hi & Hr).
  unfold _selectShard. rewrite Hi. by apply index_in_range.
Qed.

(** C2.  For every user ID and every configured list of at least one shard,
    [_selectShard] returns an element of the list: the index it computes is
    within the list.  It is a function of the CRC32 helper, the list and the
    user ID alone (it reads and changes no state) and it has no error case
    (it always returns a URL).  The CRC32 helper is external; it is taken to
    return the checksum as a hexadecimal digest. *)
Theorem selectShard_returns_configured_url crc32 databases userId :
  (1 <= length databases)%nat ->
  is_crc32_digest (crc32 userId) = true ->
  exists i url,
    shardIndex crc32 databases userId = Some i /\
    0 <= i < Z.of_nat (length databases) /\
    _selectShard crc32 databases userId = Some url /\
    In url databases.
Proof.
  intros Hlen Hd.
  destruct (shardIndex_in_range crc32 databases userId Hlen Hd) as (i & Hi & Hr).
  destruct (index_in_range databases i Hr) as (url & Hu & Hin).
  exists i, url. unfold _selectShard. rewrite Hi. auto.
Qed.

Lemma selectShard_returns_configured_url_witness :
  let databases := ["https://a.example/"; "https://b.example/"; "https://c.example/"] in
  (1 <= length databases)%nat /\
  is_crc32_digest (Crc32.crc32 "google:1234") = true /\
  exists i url,
    shardIndex Crc32.crc32 databases "google:1234" = Some i /\
    0 <= i < Z.of_nat (length databases) /\
    _selectShard Crc32.crc32 databases "google:1234" = Some url /\
    In url databases.
Proof.
  intros databases. split; [simpl; lia|]. split; [reflexivity|].
  apply (selectShard_returns_configured_url Crc32.crc32 databases "google:1234");
    [simpl; lia | reflexivity].
Defined.

Example crc32_hello : Crc32.crc32 "hello" = "3610a686".
Proof. reflexivity. Qed.

Example selectShard_of_three :
  _selectShard Crc32.crc32
    ["https://a.example/"; "https://b.example/"; "https://c.example/"] "google:1234"
  = Some "https://b.example/".
Proof. reflexivity. Qed.

(** Without the contract on the helper the selection can fail: a signed
    digest gives a negative index, a digest without digits gives [NaN]. *)
Example selectShard_signed_digest :
  _selectShard (fun _ => "-1") ["https://a.example/"; "https://b.example/"] "u" = None.
Proof. reflexivity. Qed.

Example selectShard_no_digit :
  _selectShard (fun _ => "zz") FIREBASE_DATABASES_URL "u" = None.
Proof. reflexivity. Qed.

(** The reference helper honours the contract on every input. *)
Lemma hex_char_digit d : 0 <= d < 16 -> Js.hex_digit (Crc32.hex_char d) = Some d.
Proof.
  intros Hd.
  assert (H : d = 0 \/ d = 1 \/ d = 2 \/ d = 3 \/ d = 4 \/ d = 5 \/ d = 6 \/ d = 7 \/
              d = 8 \/ d = 9 \/ d = 10 \/ d = 11 \/ d = 12 \/ d = 13 \/ d = 14 \/ d = 15)
    by lia.
  repeat (destruct H as [->|H]; [reflexivity|]). subst d. reflexivity.
Qed.

Lemma to_hex_digits k : forall n acc,
  Js.all_hex acc = true ->
  Js.all_hex (Crc32.to_hex k n acc) = true /\
  String.length (Crc32.to_hex k n acc) = (k + String.length acc)%nat.
Proof.
  induction k as [|k IH]; intros n acc Hacc; [by cbn|].
  cbn [Crc32.to_hex].
  destruct (IH (Z.shiftr n 4) (String (Crc32.hex_char (Z.land n 15)) acc)) as [H1 H2].
  - cbn [Js.all_hex]. rewrite hex_char_digit; [exact Hacc|].
    change 15 with (Z.ones 4). rewrite Z.land_ones by lia.
    change (2 ^ 4) with 16. apply Z.mod_pos_bound. lia.
  - split; [exact H1|]. rewrite H2. cbn [String.length]. lia.
Qed.

Lemma crc32_reference_digest s : is_crc32_digest (Crc32.crc32 s) = true.
Proof.
  unfold is_crc32_digest, Crc32.crc32.
  destruct (to_hex_digits 8 (Crc32.checksum s) EmptyString eq_refl) as [H1 H2].
  rewrite H1, H2. reflexivity.
Qed.

Corollary selectShard_reference databases userId :
  (1 <= length databases)%nat ->
  exists url, _selectShard Crc32.crc32 databases userId = Some url /\ In url databases.
Proof. intros Hlen. apply selectShard_configured; [exact Hlen | apply crc32_reference_digest]. Qed.

(** ** Reading the world through its changes *)

Lemma firebaseRef_logged es w : firebaseRef (logged es w) = firebaseRef w.
Proof. reflexivity. Qed.
Lemma clockOffset_logged es w : clockOffset (logged es w) = clockOffset w.
Proof. reflexivity. Qed.
Lemma writes_logged es w : writes (logged es w) = writes w.
Proof. reflexivity. Qed.
Lemma trace_logged es w : trace (logged es w) = trace w ++ es.
Proof. reflexivity. Qed.
Lemma shard_logged es w url : shard (logged es w) url = shard w url.
Proof. reflexivity. Qed.

Lemma firebaseRef_with_firebaseRef r w : firebaseRef (with_firebaseRef r w) = r.
Proof. reflexivity. Qed.
Lemma clockOffset_with_firebaseRef r w : clockOffset (with_firebaseRef r w) = clockOffset w.
Proof. reflexivity. Qed.
Lemma writes_with_firebaseRef r w : writes (with_firebaseRef r w) = writes w.
Proof. reflexivity. Qed.
Lemma trace_with_firebaseRef r w : trace (with_firebaseRef r w) = trace w.
Proof. reflexivity. Qed.
Lemma shard_with_firebaseRef r w url : shard (with_firebaseRef r w) url = shard w url.
Proof. reflexivity. Qed.

Lemma firebaseRef_with_clockOffset o w : firebaseRef (with_clockOffset o w) = firebaseRef w.
Proof. reflexivity. Qed.
Lemma clockOffset_with_clockOffset o w : clockOffset (with_clockOffset o w) = o.
Proof. reflexivity. Qed.
Lemma writes_with_clockOffset o w : writes (with_clockOffset o w) = writes w.
Proof. reflexivity. Qed.
Lemma trace_with_clockOffset o w : trace (with_clockOffset o w) = trace w.
Proof. reflexivity. Qed.
Lemma shard_with_clockOffset o w url : shard (with_clockOffset o w) url = shard w url.
Proof. reflexivity. Qed.

Lemma firebaseRef_with_writes n w : firebaseRef (with_writes n w) = firebaseRef w.
Proof. reflexivity. Qed.
Lemma clockOffset_with_writes n w : clockOffset (with_writes n w) = clockOffset w.
Proof. reflexivity. Qed.
Lemma writes_with_writes n w : writes (with_writes n w) = n.
Proof. reflexivity. Qed.
Lemma trace_with_writes n w : trace (with_writes n w) = trace w.
Proof. reflexivity. Qed.
Lemma shard_with_writes n w url : shard (with_writes n w) url = shard w url.
Proof. reflexivity. Qed.

Lemma firebaseRef_with_shard url f w : firebaseRef (with_shard url f w) = firebaseRef w.
Proof. reflexivity. Qed.
Lemma clockOffset_with_shard url f w : clockOffset (with_shard url f w) = clockOffset w.
Proof. reflexivity. Qed.
Lemma writes_with_shard url f w : writes (with_shard url f w) = writes w.
Proof. reflexivity. Qed.
Lemma trace_with_shard url f w : trace (with_shard url f w) = trace w.
Proof. reflexivity. Qed.

Lemma shard_with_shard url f w : shard (with_shard url f w) url = f (shard w url).
Proof. unfold shard at 1, with_shard. cbn [shards]. by rewrite lookup_insert_eq. Qed.

Lemma shard_with_shard_ne url url' f w :
  url <> url' -> shard (with_shard url f w) url' = shard w url'.
Proof. intros H. unfold shard, with_shard. cbn [shards]. by rewrite lookup_insert_ne. Qed.

Create Rewrite HintDb world.
#[local] Hint Rewrite
  firebaseRef_logged clockOffset_logged writes_logged trace_logged shard_logged
  firebaseRef_with_firebaseRef clockOffset_with_firebaseRef writes_with_firebaseRef
  trace_with_firebaseRef shard_with_firebaseRef
  firebaseRef_with_clockOffset clockOffset_with_clockOffset writes_with_clockOffset
  trace_with_clockOffset shard_with_clockOffset
  firebaseRef_with_writes clockOffset_with_writes writes_with_writes
  trace_with_writes shard_with_writes
  firebaseRef_with_shard clockOffset_with_shard writes_with_shard trace_with_shard
  shard_with_shard : world.

(** Symbolic execution of a method body: unfold the sequencing and the
    primitive statements, read fields through the changes made so far, and
    use what is known about the starting world. *)
Ltac unfold_ops :=
  unfold bind, ret, gets, emit, throw, set_firebaseRef, set_clockOffset,
    modify_shard, next_write, deref_firebaseRef, debugLog, console_log,
    Sdk.new, Sdk.getAuth, Sdk.authWithOAuthToken, Sdk.unauth, Sdk.on, Sdk.off,
    Sdk.once_value, Sdk.update, Sdk.set, Sdk.onDisconnect_set, Sdk.goOffline,
    Sdk.goOnline, Analytics.trackError, Analytics.trackEvent.

Ltac norm := repeat (progress (autorewrite with world; cbn beta iota delta [fst snd])).

Ltac crank_with tac := repeat (progress (unfold_ops; norm; tac)).

Ltac crank := crank_with idtac.

Lemma effects_of_trace {A} (m : M A) w es :
  trace (exec m w) = trace w ++ es -> effects m w = es.
Proof. unfold effects. intros ->. by rewrite drop_app_length. Qed.

Lemma credentials_Some w ref a :
  firebaseRef w = Some ref -> sh_auth (shard w ref) = Some a -> credentials w = Some a.
Proof. unfold credentials. by intros -> ->. Qed.

Lemma credentials_Some_inv w a :
  credentials w = Some a ->
  exists ref, firebaseRef w = Some ref /\ sh_auth (shard w ref) = Some a.
Proof. unfold credentials. destruct (firebaseRef w); [eauto | discriminate]. Qed.

Lemma logged_nil w : logged [] w = w.
Proof. destruct w. unfold logged. cbn. by rewrite app_nil_r. Qed.

Lemma logged_logged es1 es2 w : logged es2 (logged es1 w) = logged (es1 ++ es2) w.
Proof. unfold logged. cbn. by rewrite app_assoc. Qed.

Lemma effects_logged {A} (m : M A) w es : exec m w = logged es w -> effects m w = es.
Proof. intros E. apply effects_of_trace. by rewrite E. Qed.

Lemma shard_of_shards w w' url : shards w' = shards w -> shard w' url = shard w url.
Proof. unfold shard. by intros ->. Qed.

(** ** [isAuthed] *)

Lemma isAuthed_eq w :
  isAuthed w =
  (Returns (match credentials w with Some d => authData_val d | None => JNull end), w).
Proof.
  unfold isAuthed, credentials. crank. destruct (firebaseRef w); crank; reflexivity.
Qed.

(** The value [isAuthed] returns is truthy exactly when a reference is
    stored and holds credentials. *)
Lemma isAuthed_truthy_iff w v :
  outcome (isAuthed w) = Returns v ->
  truthy v = true <->
  exists ref a, firebaseRef w = Some ref /\ sh_auth (shard w ref) = Some a.
Proof.
  rewrite isAuthed_eq. cbn [outcome fst]. intros [= <-]. split.
  - destruct (credentials w) as [a|] eqn:E; [|discriminate].
    intros _. apply credentials_Some_inv in E as (ref & ? & ?). eauto.
  - intros (ref & a & Hr & Ha). by rewrite (credentials_Some _ _ _ Hr Ha).
Qed.

(** It is never a boolean: it is [null] or the credentials object. *)
Lemma isAuthed_never_boolean w v :
  outcome (isAuthed w) = Returns v -> is_boolean v = false.
Proof.
  rewrite isAuthed_eq. cbn [outcome fst]. intros [= <-].
  destruct (credentials w); reflexivity.
Qed.

(** It never throws and changes nothing. *)
Lemma isAuthed_total w : exists v, isAuthed w = (Returns v, w).
Proof. rewrite isAuthed_eq. eauto. Qed.

Lemma isAuthed_before_auth b : isAuthed (constructor b) = (Returns JNull, constructor b).
Proof. reflexivity. Qed.

(** C3.  The claim: [isAuthed()] returns a boolean, true if and only if a
    connection reference exists and holds backend credentials; false before
    any [auth], true after a successful [auth], false after [unAuth].

    The method returns [this.firebaseRef && this.firebaseRef.getAuth()]:
    on a freshly constructed instance it returns [null], after a successful
    [auth] it returns the credentials object, after [unAuth] it returns
    [null] again.  None of these is a boolean; the value is falsy, truthy
    and falsy in turn (see [isAuthed_truthy_iff]). *)
Theorem isAuthed_returns_null_or_credentials :
  outcome (isAuthed (constructor true)) = Returns JNull /\
  outcome (isAuthed Session.signed_in) = Returns (authData_val Session.user) /\
  outcome (isAuthed (exec unAuth Session.signed_in)) = Returns JNull /\
  is_boolean JNull = false /\
  is_boolean (authData_val Session.user) = false.
Proof. repeat split; reflexivity. Qed.

(** ** [unAuth] *)

Lemma getAuth_uid_authed w ref a :
  firebaseRef w = Some ref -> sh_auth (shard w ref) = Some a ->
  getAuth_uid w = (Returns (uid a), w).
Proof. intros Hr Ha. unfold getAuth_uid. crank_with ltac:(rewrite ?Hr, ?Ha). reflexivity. Qed.

(** Detaching a location leaves no listener there, whatever is detached
    or revoked afterwards. *)
Lemma listening_after_off (l : list (string * ChildEvent * Handler)) path ev :
  map snd
    (filter (fun x => String.eqb x.1.1 path && ChildEvent_eqb x.1.2 ev)
       (filter (fun x => negb (String.eqb x.1.1 path)) l)) = [].
Proof.
  rewrite list_filter_filter.
  induction l as [|x l IH]; [reflexivity|].
  rewrite filter_cons_False; [exact IH|].
  intros [H1 H2]. destruct (String.eqb x.1.1 path); simpl in *; tauto.
Qed.

Lemma filter_other_path_comm (l : list (string * ChildEvent * Handler)) p q :
  filter (fun x => negb (String.eqb x.1.1 p)) (filter (fun x => negb (String.eqb x.1.1 q)) l)
  = filter (fun x => negb (String.eqb x.1.1 q)) (filter (fun x => negb (String.eqb x.1.1 p)) l).
Proof. rewrite !list_filter_filter. apply list_filter_iff. tauto. Qed.

Lemma off_world ref path w :
  exec (Sdk.off ref path) w =
  with_shard ref
    (fun sh => set_sh_listeners
                 (filter (fun l => negb (String.eqb l.1.1 path)) (sh_listeners sh)) sh)
    (logged [E_off ref path] w).
Proof. reflexivity. Qed.

Lemma unAuth_authed_world w ref a :
  firebaseRef w = Some ref -> sh_auth (shard w ref) = Some a ->
  unAuth w =
  (Returns tt,
   logged [E_assign_firebaseRef None]
     (with_firebaseRef None
        (logged [E_debugLog [JStr "Unauthorized Firebase"]]
           (with_shard ref (set_sh_auth None)
              (logged [E_unauth ref]
                 (exec (Sdk.off ref (user_path (uid a) "feedback"))
                    (exec (Sdk.off ref (user_path (uid a) "my_sessions")) w))))))).
Proof.
  intros Hr Ha. unfold unAuth. unfold bind at 1, gets at 1. rewrite Hr.
  unfold bind at 1. rewrite (getAuth_uid_authed _ _ _ Hr Ha).
  unfold exec. crank. reflexivity.
Qed.

(** C4.  Calling [unAuth()] while no connection reference is stored
    performs no operation: it returns normally and the world afterwards is
    the world before (no field changed, no call made, nothing logged). *)
Theorem unAuth_without_reference_is_noop w :
  firebaseRef w = None -> unAuth w = (Returns tt, w).
Proof.
  intros Hr. unfold unAuth.
  unfold bind, gets. rewrite Hr.
  reflexivity.
Qed.

Lemma unAuth_without_reference_is_noop_witness :
  firebaseRef (constructor true) = None /\
  unAuth (constructor true) = (Returns tt, constructor true).
Proof.
  split; [reflexivity|].
  apply (unAuth_without_reference_is_noop (constructor true)). reflexivity.
Defined.

(** With a reference stored that holds no credentials (the exchange failed
    or has not completed yet), [unAuth] stops at [getAuth().uid]. *)
Lemma unAuth_without_credentials_throws w ref :
  firebaseRef w = Some ref -> sh_auth (shard w ref) = None ->
  unAuth w = (Throws (TypeError "this.firebaseRef.getAuth() is null"), w).
Proof.
  intros Hr Ha. unfold unAuth, getAuth_uid.
  crank_with ltac:(rewrite ?Hr, ?Ha). reflexivity.
Qed.

(** C5.  When [unAuth()] runs while authenticated, it detaches the
    subscriptions of the user's [my_sessions] and [feedback] locations
    first, revokes the credentials next, and clears the stored reference
    last: these are its effects, in this order.  Afterwards no listener is
    left on either location, the connection holds no credentials and no
    reference is stored. *)
Theorem unAuth_detaches_revokes_then_clears w ref a :
  firebaseRef w = Some ref ->
  sh_auth (shard w ref) = Some a ->
  outcome (unAuth w) = Returns tt /\
  effects unAuth w =
    [E_off ref (user_path (uid a) "my_sessions");
     E_off ref (user_path (uid a) "feedback");
     E_unauth ref;
     E_debugLog [JStr "Unauthorized Firebase"];
     E_assign_firebaseRef None] /\
  (forall ev,
     Backend.listening (shard (exec unAuth w) ref) (user_path (uid a) "my_sessions") ev = [] /\
     Backend.listening (shard (exec unAuth w) ref) (user_path (uid a) "feedback") ev = []) /\
  sh_auth (shard (exec unAuth w) ref) = None /\
  firebaseRef (exec unAuth w) = None.
Proof.
  intros Hr Ha. pose proof (unAuth_authed_world w ref a Hr Ha) as E.
  unfold outcome. split; [by rewrite E|]. split.
  { apply effects_of_trace. unfold exec at 1. rewrite E. cbn [snd].
    rewrite !off_world. norm. by rewrite <- !app_assoc. }
  unfold exec at 1 2 3 4. rewrite E. cbn [snd]. rewrite !off_world. norm.
  split; [|split; reflexivity].
  intros ev. unfold Backend.listening. cbn [sh_listeners set_sh_auth set_sh_listeners].
  split.
  - rewrite filter_other_path_comm. apply listening_after_off.
  - apply listening_after_off.
Qed.

Lemma unAuth_detaches_revokes_then_clears_witness :
  firebaseRef Session.signed_in = Some Session.url /\
  sh_auth (shard Session.signed_in Session.url) = Some Session.user /\
  effects unAuth Session.signed_in =
    [E_off Session.url (user_path (uid Session.user) "my_sessions");
     E_off Session.url (user_path (uid Session.user) "feedback");
     E_unauth Session.url;
     E_debugLog [JStr "Unauthorized Firebase"];
     E_assign_firebaseRef None].
Proof.
  split; [reflexivity|]. split; [reflexivity|].
  apply (unAuth_detaches_revokes_then_clears Session.signed_in Session.url Session.user);
    reflexivity.
Defined.

(** After [unAuth], however it ends, [isAuthed] returns [null]. *)
Lemma isAuthed_after_unAuth w : outcome (isAuthed (exec unAuth w)) = Returns JNull.
Proof.
  rewrite isAuthed_eq. cbn [outcome fst]. unfold exec.
  destruct (firebaseRef w) as [ref|] eqn:Hr.
  - destruct (sh_auth (shard w ref)) as [a|] eqn:Ha.
    + rewrite (unAuth_authed_world w ref a Hr Ha). reflexivity.
    + rewrite (unAuth_without_credentials_throws w ref Hr Ha). cbn [snd].
      unfold credentials. by rewrite Hr, Ha.
  - unfold unAuth, bind, gets. rewrite Hr. cbn [ret snd].
    unfold credentials. by rewrite Hr.
Qed.

(** ** Writes *)

Lemma write_timestamp_eq timestamp w :
  write_timestamp timestamp w =
  (Returns (match timestamp with
            | Some t => if t =? 0 then JServerTimestamp else JNum (t + clockOffset w)
            | None => JServerTimestamp
            end), w).
Proof.
  unfold write_timestamp. crank. destruct timestamp as [t|]; [|reflexivity].
  cbn [truthy]. by destruct (t =? 0).
Qed.

Lemma updateFirebaseUserData_unauthed attribute value w :
  credentials w = None ->
  _updateFirebaseUserData attribute value w =
  (Returns JUndefined,
   logged [E_debugLog [JStr "Trying to write to Firebase while not authorized."]] w).
Proof.
  intros Hc. unfold _updateFirebaseUserData. unfold bind at 1.
  rewrite isAuthed_eq, Hc. cbn [truthy]. crank. reflexivity.
Qed.

Lemma updateFirebaseUserData_authed attribute value w ref a :
  firebaseRef w = Some ref -> sh_auth (shard w ref) = Some a ->
  _updateFirebaseUserData attribute value w =
  (Returns (JPromise (writes w)),
   with_shard ref
     (fun sh =>
        set_sh_pendingWrites
          (sh_pendingWrites sh ++ [(writes w, WriteCb (uid a) attribute (JObj value))])
          (set_sh_data
             (<[user_path (uid a) attribute :=
                  JObj ((Sdk.resolve (sh_now sh) <$> value)
                          ∪ Sdk.children (sh_data sh !! user_path (uid a) attribute))]>
                (sh_data sh)) sh))
     (logged [E_update ref (user_path (uid a) attribute) value]
        (with_writes (S (writes w)) w))).
Proof.
  intros Hr Ha. unfold _updateFirebaseUserData. unfold bind at 1.
  rewrite isAuthed_eq, (credentials_Some _ _ _ Hr Ha).
  change (truthy (authData_val a)) with true. cbn iota.
  unfold bind at 1. rewrite (getAuth_uid_authed _ _ _ Hr Ha).
  crank_with ltac:(rewrite ?Hr). reflexivity.
Qed.

(** The object each mutation method hands to [_updateFirebaseUserData]. *)
Lemma mutate_eq m w :
  exists value, mutate m w = _updateFirebaseUserData (mutation_attribute m) value w.
Proof.
  destruct m; cbn [mutate mutation_attribute];
    unfold toggleSession, markSessionRated, markVideoAsViewed, addGcmId;
    try (unfold bind at 1; rewrite write_timestamp_eq); eauto.
Qed.

(** C8.  Calling any mutation method or any subscribe method while
    unauthenticated makes no backend call and no write and raises no
    error: the call returns normally, with [undefined], the world
    afterwards is the world before with one debug-log entry added, and no
    effect of the call is a call to the backend. *)
Theorem unauthenticated_calls_only_log w :
  credentials w = None ->
  (forall m,
     mutate m w =
     (Returns JUndefined,
      logged [E_debugLog [JStr "Trying to write to Firebase while not authorized."]] w) /\
     filter is_backend_call (effects (mutate m) w) = []) /\
  (forall s,
     subscribe s w =
     (Returns tt,
      logged [E_debugLog [JStr "Trying to subscribe to Firebase while not authorized."]] w) /\
     filter is_backend_call (effects (subscribe s) w) = []).
Proof.
  intros Hc. split.
  - intros m. destruct (mutate_eq m w) as [value E].
    pose proof (updateFirebaseUserData_unauthed (mutation_attribute m) value w Hc) as U.
    rewrite <- E in U. split; [exact U|].
    rewrite (effects_logged (mutate m) w _ (f_equal snd U)). reflexivity.
  - intros s.
    assert (U : subscribe s w =
                (Returns tt,
                 logged [E_debugLog
                           [JStr "Trying to subscribe to Firebase while not authorized."]] w)).
    { destruct s; cbn [subscribe];
        unfold registerToSessionUpdates, registerToFeedbackUpdates, _registerToUpdates;
        unfold bind at 1; rewrite isAuthed_eq, Hc; cbn [truthy]; crank; reflexivity. }
    split; [exact U|].
    rewrite (effects_logged (subscribe s) w _ (f_equal snd U)). reflexivity.
Qed.

Lemma unauthenticated_calls_only_log_witness :
  credentials (constructor true) = None /\
  (forall m,
     mutate m (constructor true) =
     (Returns JUndefined,
      logged [E_debugLog [JStr "Trying to write to Firebase while not authorized."]]
        (constructor true)) /\
     filter is_backend_call (effects (mutate m) (constructor true)) = []) /\
  (forall s,
     subscribe s (constructor true) =
     (Returns tt,
      logged [E_debugLog [JStr "Trying to subscribe to Firebase while not authorized."]]
        (constructor true)) /\
     filter is_backend_call (effects (subscribe s) (constructor true)) = []).
Proof.
  split; [reflexivity|].
  apply (unauthenticated_calls_only_log (constructor true)). reflexivity.
Defined.

(** C10.  Every mutation method returns the completion signal of the write
    it issued (the promise [ref.update] returned, for the write now pending
    under that number) when called while authenticated, and [undefined]
    when called while unauthenticated. *)
Theorem mutation_returns_promise_or_undefined w m :
  (forall ref a,
     firebaseRef w = Some ref -> sh_auth (shard w ref) = Some a ->
     outcome (mutate m w) = Returns (JPromise (writes w)) /\
     exists value,
       effects (mutate m) w = [E_update ref (user_path (uid a) (mutation_attribute m)) value] /\
       sh_pendingWrites (shard (exec (mutate m) w) ref) =
         sh_pendingWrites (shard w ref)
           ++ [(writes w, WriteCb (uid a) (mutation_attribute m) (JObj value))]) /\
  (credentials w = None -> outcome (mutate m w) = Returns JUndefined).
Proof.
  split.
  - intros ref a Hr Ha. destruct (mutate_eq m w) as [value E].
    unfold outcome, effects, exec. rewrite E.
    rewrite (updateFirebaseUserData_authed _ _ _ _ _ Hr Ha). cbn [fst snd].
    split; [reflexivity|]. exists value. split.
    + norm. by rewrite drop_app_length.
    + norm. reflexivity.
  - intros Hc. destruct (mutate_eq m w) as [value E].
    unfold outcome. by rewrite E, (updateFirebaseUserData_unauthed _ _ _ Hc).
Qed.

Lemma mutation_returns_promise_or_undefined_witness :
  outcome (mutate (AddGcmId "id-1") Session.signed_in)
    = Returns (JPromise (writes Session.signed_in)) /\
  outcome (mutate (AddGcmId "id-1") (constructor true)) = Returns JUndefined.
Proof.
  split.
  - apply (proj1 (mutation_returns_promise_or_undefined Session.signed_in (AddGcmId "id-1"))
             Session.url Session.user); reflexivity.
  - apply (proj2 (mutation_returns_promise_or_undefined (constructor true) (AddGcmId "id-1"))).
    reflexivity.
Defined.

(** ** Timestamps *)

(** A supplied timestamp other than zero is shifted by the clock offset;
    an omitted one is left to the backend. *)
Lemma write_timestamp_as_specified timestamp w :
  timestamp <> Some 0 ->
  write_timestamp timestamp w = (Returns (specified_timestamp timestamp (clockOffset w)), w).
Proof.
  intros H. rewrite write_timestamp_eq. destruct timestamp as [t|]; [|reflexivity].
  destruct (Z.eqb_spec t 0) as [->|_]; [congruence | reflexivity].
Qed.

Lemma write_timestamp_zero w :
  write_timestamp (Some 0) w = (Returns JServerTimestamp, w).
Proof. by rewrite write_timestamp_eq. Qed.

(** What the three timestamped methods hand to the write, whenever the
    timestamp is omitted or is not zero. *)
Lemma timestamped_writes_as_specified w ref a timestamp :
  firebaseRef w = Some ref -> sh_auth (shard w ref) = Some a ->
  timestamp <> Some 0 ->
  let ts := specified_timestamp timestamp (clockOffset w) in
  (forall sessionUUID bookmarked,
     effects (toggleSession sessionUUID bookmarked timestamp) w =
     [E_update ref (user_path (uid a) "my_sessions")
        (<[sessionUUID := JObj (<["bookmarked" := JBool bookmarked]>
                                  {[ "timestamp" := ts ]})]> ∅)]) /\
  (forall sessionUUID,
     effects (markSessionRated sessionUUID timestamp) w =
     [E_update ref (user_path (uid a) "feedback")
        (<[sessionUUID := JObj {[ "timestamp" := ts ]}]> ∅)]) /\
  (forall videoId,
     effects (markVideoAsViewed videoId timestamp) w =
     [E_update ref (user_path (uid a) "viewed_videos") (<[videoId := ts]> ∅)]).
Proof.
  intros Hr Ha Ht ts.
  repeat split; intros;
    unfold effects, exec, toggleSession, markSessionRated, markVideoAsViewed;
    unfold bind at 1; rewrite (write_timestamp_as_specified _ _ Ht);
    rewrite (updateFirebaseUserData_authed _ _ _ _ _ Hr Ha); cbn [snd]; norm;
    by rewrite drop_app_length.
Qed.

(** The backend stores its own clock for the placeholder, whatever the
    local clock offset is. *)
Lemma omitted_timestamp_is_backend_time w ref a videoId :
  firebaseRef w = Some ref -> sh_auth (shard w ref) = Some a ->
  Sdk.children
    (sh_data (shard (exec (markVideoAsViewed videoId None) w) ref)
       !! user_path (uid a) "viewed_videos") !! videoId
  = Some (JNum (sh_now (shard w ref))).
Proof.
  intros Hr Ha. unfold exec, markVideoAsViewed. unfold bind at 1.
  rewrite write_timestamp_eq, (updateFirebaseUserData_authed _ _ _ _ _ Hr Ha).
  cbn [snd]. norm. cbn [sh_data set_sh_pendingWrites set_sh_data].
  rewrite lookup_insert_eq. cbn [Sdk.children].
  apply lookup_union_Some_l. rewrite lookup_fmap, lookup_insert_eq. reflexivity.
Qed.

(** C1.  The claim: a mutation call made while authenticated with a
    supplied local timestamp [t] writes the timestamp [t + o], [o] being the
    stored clock offset; with the timestamp omitted it writes the
    backend-assigned value.

    The three methods test the timestamp for truthiness
    ([timestamp ? timestamp + this.clockOffset : ...]), so that a supplied
    timestamp of [0] is treated as omitted: with offset 50, each of them
    hands the backend's placeholder to the write, where the claim asks for
    [0 + 50].  For every other timestamp, and for an omitted one, the
    written value is the claimed one ([timestamped_writes_as_specified],
    [omitted_timestamp_is_backend_time]). *)
Theorem timestamp_zero_is_replaced_by_server_value :
  clockOffset Session.signed_in = 50 /\
  effects (toggleSession "abc" true (Some 0)) Session.signed_in =
    [E_update Session.url "users/google:1234/my_sessions"
       (<["abc" := JObj (<["bookmarked" := JBool true]>
                           {[ "timestamp" := JServerTimestamp ]})]> ∅)] /\
  effects (markSessionRated "abc" (Some 0)) Session.signed_in =
    [E_update Session.url "users/google:1234/feedback"
       (<["abc" := JObj {[ "timestamp" := JServerTimestamp ]}]> ∅)] /\
  effects (markVideoAsViewed "vid1" (Some 0)) Session.signed_in =
    [E_update Session.url "users/google:1234/viewed_videos"
       (<["vid1" := JServerTimestamp]> ∅)] /\
  specified_timestamp (Some 0) (clockOffset Session.signed_in) = JNum 50.
Proof. repeat split; reflexivity. Qed.

Lemma toggleSession_eq sessionUUID bookmarked timestamp w :
  toggleSession sessionUUID bookmarked timestamp w =
  _updateFirebaseUserData "my_sessions"
    (<[sessionUUID :=
         JObj (<["bookmarked" := JBool bookmarked]>
                 {[ "timestamp" :=
                      match timestamp with
                      | Some t => if t =? 0 then JServerTimestamp
                                  else JNum (t + clockOffset w)
                      | None => JServerTimestamp
                      end ]})]> ∅) w.
Proof. unfold toggleSession. unfold bind at 1. by rewrite write_timestamp_eq. Qed.

(** C6.  For an authenticated connection with clock offset 50,
    [toggleSession("abc", true, 1000)] issues one merge-write to the
    bookmarks location of the user, of the object
    [{abc: {timestamp: 1050, bookmarked: true}}]; afterwards the entry
    ["abc"] is that object and every entry under another key is what it was
    before.  The only call made is an [update], not a replacing [set]. *)
Theorem toggleSession_merges_one_entry w ref a :
  firebaseRef w = Some ref ->
  sh_auth (shard w ref) = Some a ->
  clockOffset w = 50 ->
  let bookmarks := user_path (uid a) "my_sessions" in
  let entry := JObj (<["bookmarked" := JBool true]> {[ "timestamp" := JNum 1050 ]}) in
  let w' := exec (toggleSession "abc" true (Some 1000)) w in
  effects (toggleSession "abc" true (Some 1000)) w
    = [E_update ref bookmarks (<["abc" := entry]> ∅)] /\
  Sdk.children (sh_data (shard w' ref) !! bookmarks) !! "abc" = Some entry /\
  (forall key,
     key <> "abc" ->
     Sdk.children (sh_data (shard w' ref) !! bookmarks) !! key
     = Sdk.children (sh_data (shard w ref) !! bookmarks) !! key).
Proof.
  intros Hr Ha Ho bookmarks entry w'.
  assert (Ht : Some 1000 <> Some 0) by discriminate.
  destruct (timestamped_writes_as_specified w ref a _ Hr Ha Ht) as (Htoggle & _).
  split.
  { rewrite Htoggle, Ho. reflexivity. }
  subst w'. unfold exec.
  rewrite toggleSession_eq, (updateFirebaseUserData_authed _ _ _ _ _ Hr Ha), Ho.
  cbn [snd]. norm. cbn [sh_data set_sh_pendingWrites set_sh_data].
  rewrite lookup_insert_eq. cbn [Sdk.children]. split.
  - apply lookup_union_Some_l. rewrite lookup_fmap, lookup_insert_eq.
    reflexivity.
  - intros key Hk. apply lookup_union_r.
    rewrite lookup_fmap, lookup_insert_ne, lookup_empty by congruence. reflexivity.
Qed.

Lemma toggleSession_merges_one_entry_witness :
  let w := Session.signed_in in
  let bookmarks := user_path (uid Session.user) "my_sessions" in
  let entry := JObj (<["bookmarked" := JBool true]> {[ "timestamp" := JNum 1050 ]}) in
  let w' := exec (toggleSession "abc" true (Some 1000)) w in
  effects (toggleSession "abc" true (Some 1000)) w
    = [E_update Session.url bookmarks (<["abc" := entry]> ∅)] /\
  Sdk.children (sh_data (shard w' Session.url) !! bookmarks) !! "abc" = Some entry /\
  (forall key,
     key <> "abc" ->
     Sdk.children (sh_data (shard w' Session.url) !! bookmarks) !! key
     = Sdk.children (sh_data (shard w Session.url) !! bookmarks) !! key).
Proof.
  apply (toggleSession_merges_one_entry Session.signed_in Session.url Session.user);
    reflexivity.
Defined.

(** ** Subscriptions *)

(** Running handlers only calls the UI callbacks, one call per handler. *)
Lemma for_each_run_handler snap hs w :
  for_each (fun h => run_handler h snap) hs w
  = (Returns tt, logged (map (handler_call snap) hs) w).
Proof.
  revert w. induction hs as [|h hs IH]; intros w; cbn [for_each map].
  - unfold ret. by rewrite logged_nil.
  - unfold bind. destruct h; cbn [run_handler handler_call]; unfold emit;
      rewrite IH, logged_logged; reflexivity.
Qed.

Lemma raise_eq url path ev snap w :
  Backend.raise url path ev snap w
  = (Returns tt,
     logged (map (handler_call snap) (Backend.listening (shard w url) path ev)) w).
Proof. unfold Backend.raise. unfold bind, gets. apply for_each_run_handler. Qed.

Lemma effects_raise url path ev snap w :
  effects (Backend.raise url path ev snap) w
  = map (handler_call snap) (Backend.listening (shard w url) path ev).
Proof. apply effects_logged. unfold exec. by rewrite raise_eq. Qed.

Lemma effects_delete_child url path key old w :
  Sdk.children (sh_data (shard w url) !! path) !! key = Some old ->
  effects (Backend.delete_child url path key) w
  = map (handler_call {| snap_key := key; snap_val := old |})
      (Backend.listening (shard w url) path child_removed).
Proof.
  intros Hk. apply effects_of_trace. unfold exec, Backend.delete_child.
  unfold bind at 1, gets at 1. rewrite Hk. unfold bind, modify_shard.
  rewrite raise_eq. cbn [snd]. norm. reflexivity.
Qed.

Lemma on_world ref path ev h w :
  exec (Sdk.on ref path ev h) w
  = with_shard ref (fun sh => set_sh_listeners (sh_listeners sh ++ [(path, ev, h)]) sh)
      (logged [E_on ref path ev h] w).
Proof. reflexivity. Qed.

Lemma registerToUpdates_authed attribute callback w ref a :
  firebaseRef w = Some ref -> sh_auth (shard w ref) = Some a ->
  _registerToUpdates attribute callback w =
  (Returns tt,
   exec (Sdk.on ref (user_path (uid a) attribute) child_removed (SnapshotKeyNull callback))
     (exec (Sdk.on ref (user_path (uid a) attribute) child_changed (SnapshotKeyVal callback))
        (exec (Sdk.on ref (user_path (uid a) attribute) child_added (SnapshotKeyVal callback))
           w))).
Proof.
  intros Hr Ha. unfold _registerToUpdates. unfold bind at 1.
  rewrite isAuthed_eq, (credentials_Some _ _ _ Hr Ha).
  change (truthy (authData_val a)) with true. cbn iota.
  unfold bind at 1. rewrite (getAuth_uid_authed _ _ _ Hr Ha).
  unfold exec. crank_with ltac:(rewrite ?Hr). reflexivity.
Qed.

Lemma subscribe_eq s :
  subscribe s = _registerToUpdates (subscription_attribute s) (subscription_callback s).
Proof. by destruct s. Qed.

(** The handler [_registerToUpdates] attaches for an event. *)
Lemma listening_after_registerToUpdates attribute callback w ref a ev :
  firebaseRef w = Some ref -> sh_auth (shard w ref) = Some a ->
  Backend.listening
    (shard (exec (_registerToUpdates attribute callback) w) ref)
    (user_path (uid a) attribute) ev
  = Backend.listening (shard w ref) (user_path (uid a) attribute) ev
      ++ [match ev with
          | child_removed => SnapshotKeyNull callback
          | _ => SnapshotKeyVal callback
          end].
Proof.
  intros Hr Ha. unfold exec at 1.
  rewrite (registerToUpdates_authed _ _ _ _ _ Hr Ha). cbn [snd].
  rewrite !on_world. norm. unfold Backend.listening.
  cbn [sh_listeners set_sh_listeners].
  rewrite <- !app_assoc, filter_app, map_app. f_equal.
  cbn [app]. rewrite !filter_cons, filter_nil. cbn [fst snd].
  rewrite String.eqb_refl. by destruct ev.
Qed.

Lemma registerToUpdates_keeps attribute callback w ref a :
  firebaseRef w = Some ref -> sh_auth (shard w ref) = Some a ->
  let w' := exec (_registerToUpdates attribute callback) w in
  firebaseRef w' = Some ref /\
  sh_auth (shard w' ref) = Some a /\
  sh_data (shard w' ref) = sh_data (shard w ref).
Proof.
  intros Hr Ha w'. subst w'. unfold exec.
  rewrite (registerToUpdates_authed _ _ _ _ _ Hr Ha). cbn [snd].
  rewrite !on_world. norm. cbn [sh_auth sh_data set_sh_listeners]. auto.
Qed.

(** C7.  A subscribe call made while authenticated attaches exactly three
    handlers on the attribute's location of the user, for [child_added],
    [child_changed] and [child_removed], after the handlers already there.
    When one of these events is raised, the handler calls
    [callback(key, value)], with [null] for the value on a removal.  After
    a second, independent registration on the same attribute, the deletion
    of an entry calls both callbacks with the entry's key and [null]. *)
Theorem subscribe_attaches_three_handlers w ref a s :
  firebaseRef w = Some ref ->
  sh_auth (shard w ref) = Some a ->
  let path := user_path (uid a) (subscription_attribute s) in
  let callback := subscription_callback s in
  let w' := exec (subscribe s) w in
  outcome (subscribe s w) = Returns tt /\
  effects (subscribe s) w =
    [E_on ref path child_added (SnapshotKeyVal callback);
     E_on ref path child_changed (SnapshotKeyVal callback);
     E_on ref path child_removed (SnapshotKeyNull callback)] /\
  sh_listeners (shard w' ref) =
    sh_listeners (shard w ref)
      ++ [(path, child_added, SnapshotKeyVal callback);
          (path, child_changed, SnapshotKeyVal callback);
          (path, child_removed, SnapshotKeyNull callback)] /\
  (forall ev snap,
     effects (Backend.raise ref path ev snap) w' =
     effects (Backend.raise ref path ev snap) w
       ++ [E_callback callback (snap_key snap)
             (match ev with child_removed => JNull | _ => snap_val snap end)]) /\
  (forall s2 key old,
     subscription_attribute s2 = subscription_attribute s ->
     Sdk.children (sh_data (shard w ref) !! path) !! key = Some old ->
     effects (Backend.delete_child ref path key) (exec (subscribe s2) w') =
     effects (Backend.delete_child ref path key) w
       ++ [E_callback callback key JNull;
           E_callback (subscription_callback s2) key JNull]).
Proof.
  intros Hr Ha path callback w'. subst path callback w'.
  rewrite subscribe_eq.
  set (attribute := subscription_attribute s).
  set (callback := subscription_callback s).
  pose proof (registerToUpdates_authed attribute callback w ref a Hr Ha) as E.
  destruct (registerToUpdates_keeps attribute callback w ref a Hr Ha) as (Hr' & Ha' & Hd').
  split; [unfold outcome; by rewrite E|]. split.
  { apply effects_of_trace. unfold exec. rewrite E. cbn [snd]. unfold exec.
    crank. by rewrite <- !app_assoc. }
  split.
  { unfold exec. rewrite E. cbn [snd]. unfold exec. crank.
    cbn [sh_listeners set_sh_listeners]. by rewrite <- !app_assoc. }
  split.
  - intros ev snap. rewrite !effects_raise.
    rewrite (listening_after_registerToUpdates _ _ _ _ _ _ Hr Ha), map_app.
    f_equal. by destruct ev.
  - intros s2 key old Hs2 Hk.
    rewrite (effects_delete_child _ _ _ old w) by exact Hk.
    rewrite subscribe_eq, Hs2. fold attribute.
    destruct (registerToUpdates_keeps attribute (subscription_callback s2) _ ref a Hr' Ha')
      as (_ & _ & Hd'').
    rewrite (effects_delete_child _ _ _ old).
    2:{ rewrite Hd'', Hd'. exact Hk. }
    rewrite (listening_after_registerToUpdates _ _ _ _ _ _ Hr' Ha').
    rewrite (listening_after_registerToUpdates _ _ _ _ _ _ Hr Ha).
    rewrite <- app_assoc, map_app. reflexivity.
Qed.

Lemma subscribe_attaches_three_handlers_witness :
  let w := Session.bookmarked in
  let path := user_path (uid Session.user) "my_sessions" in
  firebaseRef w = Some Session.url /\
  sh_auth (shard w Session.url) = Some Session.user /\
  effects (Backend.delete_child Session.url path "abc")
    (exec (subscribe (RegisterToSessionUpdates 2%nat))
       (exec (subscribe (RegisterToSessionUpdates 1%nat)) w))
  = effects (Backend.delete_child Session.url path "abc") w
      ++ [E_callback 1%nat "abc" JNull; E_callback 2%nat "abc" JNull].
Proof.
  intros w path.
  assert (Hr : firebaseRef w = Some Session.url) by (vm_compute; reflexivity).
  assert (Ha : sh_auth (shard w Session.url) = Some Session.user) by (vm_compute; reflexivity).
  split; [exact Hr|]. split; [exact Ha|].
  destruct (subscribe_attaches_three_handlers w Session.url Session.user
              (RegisterToSessionUpdates 1%nat) Hr Ha)
    as (_ & _ & _ & _ & H).
  apply (H (RegisterToSessionUpdates 2%nat) "abc"
           (JObj (<["bookmarked" := JBool true]> {[ "timestamp" := JNum 1050 ]}))).
  - reflexivity.
  - vm_compute. reflexivity.
Defined.

(** ** The clock offset *)

Lemma keeps_clock_ret {A} (a : A) : keeps_clock (ret a).
Proof. by intros w. Qed.

Lemma keeps_clock_throw {A} e : keeps_clock (@throw A e).
Proof. by intros w. Qed.

Lemma keeps_clock_gets {A} (f : World -> A) : keeps_clock (gets f).
Proof. by intros w. Qed.

Lemma keeps_clock_emit e : keeps_clock (emit e).
Proof. by intros w. Qed.

Lemma keeps_clock_bind {A B} (m : M A) (k : A -> M B) :
  keeps_clock m -> (forall a, keeps_clock (k a)) -> keeps_clock (bind m k).
Proof.
  intros Hm Hk w. specialize (Hm w). unfold exec, bind in *.
  destruct (m w) as [[a|e] w1]; cbn [snd] in *; [|exact Hm].
  destruct (Hk a w1) as [Hc Ho]. destruct Hm as [Hc' Ho']. unfold exec in Hc, Ho.
  split; [congruence|]. intros url. by rewrite Ho, Ho'.
Qed.

Lemma keeps_clock_modify_shard url f :
  (forall sh, sh_once (f sh) = sh_once sh) -> keeps_clock (modify_shard url f).
Proof.
  intros Hf w. unfold exec, modify_shard. cbn [snd]. split; [reflexivity|].
  intros url'. destruct (decide (url = url')) as [<-|Hne].
  - by rewrite shard_with_shard, Hf.
  - by rewrite shard_with_shard_ne.
Qed.

Lemma keeps_clock_set_firebaseRef r : keeps_clock (set_firebaseRef r).
Proof. by intros w. Qed.

Lemma keeps_clock_next_write : keeps_clock next_write.
Proof. by intros w. Qed.

Lemma keeps_clock_deref : keeps_clock deref_firebaseRef.
Proof. intros w. unfold exec, deref_firebaseRef. by destruct (firebaseRef w). Qed.

Create HintDb keeps.
#[local] Hint Resolve keeps_clock_ret keeps_clock_throw keeps_clock_gets keeps_clock_emit
  keeps_clock_set_firebaseRef keeps_clock_next_write keeps_clock_deref : keeps.

(** A body built from such statements is one. *)
Ltac keeps :=
  repeat first
    [ apply keeps_clock_bind; [|intros ?]
    | apply keeps_clock_modify_shard; intros ?; reflexivity
    | solve [auto with keeps]
    | match goal with
      | |- keeps_clock (match ?x with _ => _ end) => destruct x
      | |- keeps_clock (if ?b then _ else _) => destruct b
      end ].

Lemma keeps_clock_getAuth_uid : keeps_clock getAuth_uid.
Proof. unfold getAuth_uid, Sdk.getAuth. keeps. Qed.

Lemma keeps_clock_isAuthed : keeps_clock isAuthed.
Proof. unfold isAuthed, Sdk.getAuth. keeps. Qed.

#[local] Hint Resolve keeps_clock_getAuth_uid keeps_clock_isAuthed : keeps.

Lemma keeps_clock_setFirebaseUserData attribute value :
  keeps_clock (_setFirebaseUserData attribute value).
Proof. unfold _setFirebaseUserData, Sdk.set, debugLog. keeps. Qed.

#[local] Hint Resolve keeps_clock_setFirebaseUserData : keeps.

Lemma keeps_clock_bumpLastActivityTimestamp : keeps_clock _bumpLastActivityTimestamp.
Proof. unfold _bumpLastActivityTimestamp, Sdk.onDisconnect_set. keeps. Qed.

#[local] Hint Resolve keeps_clock_bumpLastActivityTimestamp : keeps.

Lemma keeps_clock_auth_callback cb error : keeps_clock (auth_callback cb error).
Proof.
  unfold auth_callback, Analytics.trackError, Analytics.trackEvent, debugLog.
  destruct cb. keeps.
Qed.

#[local] Hint Resolve keeps_clock_auth_callback : keeps.

(** Whatever the outcome of the credential exchange, its completion leaves
    the clock offset and the pending reads alone. *)
Lemma keeps_clock_complete_auth url result : keeps_clock (Backend.complete_auth url result).
Proof. unfold Backend.complete_auth. keeps. Qed.

Lemma auth_world crc32 databases userId accessToken url w :
  _selectShard crc32 databases userId = Some url ->
  auth crc32 databases userId accessToken w =
  (Returns tt,
   with_shard url (fun sh => set_sh_once (sh_once sh ++ [("/.info/serverTimeOffset", OffsetCb)]) sh)
     (logged [E_once_value url "/.info/serverTimeOffset"]
        (with_shard url (fun sh => set_sh_pendingAuth (sh_pendingAuth sh ++ [AuthCb (Some url)]) sh)
           (logged [E_authWithOAuthToken url "google" accessToken]
              (logged [E_assign_firebaseRef (Some url)]
                 (with_firebaseRef (Some url)
                    (logged [E_new_Firebase url]
                       (logged [E_console_log
                                  [JStr "Chose the following Firebase Database Shard:";
                                   JStr url]] w)))))))).
Proof.
  intros Hs. unfold auth, _updateClockOffset. rewrite Hs.
  cbn [of_optional_string]. crank. reflexivity.
Qed.

Lemma offset_callback_eq cb v w :
  offset_callback cb v w =
  (Returns tt,
   logged [E_debugLog [JStr "Updated clock offset to"; JNum v; JStr "ms"]]
     (logged [E_assign_clockOffset v] (with_clockOffset v w))).
Proof. destruct cb. unfold offset_callback. crank. reflexivity. Qed.

(** Calling the one-shot readers stores the value, if there is a reader. *)
Lemma for_each_offset_callback v (l : list (string * OffsetCallback)) w :
  outcome (for_each (fun r => offset_callback r.2 v) l w) = Returns tt /\
  shards (exec (for_each (fun r => offset_callback r.2 v) l) w) = shards w /\
  clockOffset (exec (for_each (fun r => offset_callback r.2 v) l) w)
    = match l with [] => clockOffset w | _ => v end.
Proof.
  revert w. induction l as [|r l IH]; intros w; [by cbn|].
  cbn [for_each]. unfold outcome, exec, bind. rewrite offset_callback_eq.
  destruct (IH (logged [E_debugLog [JStr "Updated clock offset to"; JNum v; JStr "ms"]]
                  (logged [E_assign_clockOffset v] (with_clockOffset v w))))
    as (Ho & Hs & Hc).
  unfold outcome, exec in Ho, Hs, Hc.
  split; [exact Ho|]. split; [by rewrite Hs|].
  rewrite Hc. by destruct l.
Qed.

Lemma deliver_value_clockOffset url path v w :
  clockOffset (exec (Backend.deliver_value url path v) w)
  = match filter (fun r => String.eqb r.1 path) (sh_once (shard w url)) with
    | [] => clockOffset w
    | _ => v
    end.
Proof.
  unfold exec, Backend.deliver_value. unfold bind, gets, modify_shard.
  match goal with |- context [for_each ?f ?l ?w'] =>
    destruct (for_each_offset_callback v l w') as (_ & _ & Hc) end.
  unfold exec in Hc. rewrite Hc. reflexivity.
Qed.

Lemma deliver_value_readers url path v w :
  sh_once (shard (exec (Backend.deliver_value url path v) w) url)
  = filter (fun r => negb (String.eqb r.1 path)) (sh_once (shard w url)).
Proof.
  unfold exec, Backend.deliver_value. unfold bind, gets, modify_shard.
  match goal with |- context [for_each ?f ?l ?w'] =>
    destruct (for_each_offset_callback v l w') as (_ & Hs & _) end.
  unfold exec in Hs. rewrite (shard_of_shards _ _ _ Hs). by norm.
Qed.

Lemma no_reader_after_delivery (l : list (string * OffsetCallback)) path :
  filter (fun r => String.eqb r.1 path) (filter (fun r => negb (String.eqb r.1 path)) l) = [].
Proof.
  rewrite list_filter_filter. induction l as [|x l IH]; [reflexivity|].
  rewrite filter_cons_False; [exact IH|].
  intros [H1 H2]. destruct (String.eqb x.1 path); simpl in *; tauto.
Qed.

Lemma reader_pending (l : list (string * OffsetCallback)) path cb :
  filter (fun r => String.eqb r.1 path) (l ++ [(path, cb)]) <> [].
Proof.
  rewrite filter_app, filter_cons_True by (cbn; by rewrite String.eqb_refl).
  by destruct (filter _ l).
Qed.

(** C9.  Every call to [auth(userId, accessToken)] issues, besides the
    credential exchange, one one-shot read of [/.info/serverTimeOffset] on
    the selected shard.  Whether the exchange then succeeds or fails, and
    whether it completes before or after the read, the value the backend
    delivers is stored in [clockOffset]; a value delivered later no longer
    changes it, the read being made once.  The CRC32 helper is taken to
    return a hexadecimal digest, and the shard list to be non-empty, so
    that a shard is selected. *)
Theorem auth_refreshes_clock_offset crc32 databases userId accessToken w :
  (1 <= length databases)%nat ->
  is_crc32_digest (crc32 userId) = true ->
  exists url,
    In url databases /\
    let offset := "/.info/serverTimeOffset" in
    let w1 := exec (auth crc32 databases userId accessToken) w in
    outcome (auth crc32 databases userId accessToken w) = Returns tt /\
    effects (auth crc32 databases userId accessToken) w =
      [E_console_log [JStr "Chose the following Firebase Database Shard:"; JStr url];
       E_new_Firebase url;
       E_assign_firebaseRef (Some url);
       E_authWithOAuthToken url "google" accessToken;
       E_once_value url offset] /\
    forall result v,
      clockOffset
        (exec (Backend.deliver_value url offset v)
           (exec (Backend.complete_auth url result) w1)) = v /\
      clockOffset
        (exec (Backend.complete_auth url result)
           (exec (Backend.deliver_value url offset v) w1)) = v /\
      forall v',
        clockOffset
          (exec (Backend.deliver_value url offset v')
             (exec (Backend.deliver_value url offset v) w1)) = v.
Proof.
  intros Hlen Hd.
  destruct (selectShard_configured crc32 databases userId Hlen Hd) as (url & Hs & Hin).
  exists url. split; [exact Hin|]. intros offset w1.
  pose proof (auth_world crc32 databases userId accessToken url w Hs) as E.
  assert (Hreaders : sh_once (shard w1 url) = sh_once (shard w url) ++ [(offset, OffsetCb)]).
  { subst w1. unfold exec. rewrite E. by norm. }
  split; [unfold outcome; by rewrite E|]. split.
  { apply effects_of_trace. unfold exec. rewrite E. norm. by rewrite <- !app_assoc. }
  intros result v. split; [|split].
  - rewrite deliver_value_clockOffset.
    destruct (keeps_clock_complete_auth url result w1) as [_ ->].
    rewrite Hreaders.
    pose proof (reader_pending (sh_once (shard w url)) offset OffsetCb) as Hne.
    by destruct (filter _ _).
  - destruct (keeps_clock_complete_auth url result
                (exec (Backend.deliver_value url offset v) w1)) as [-> _].
    rewrite deliver_value_clockOffset, Hreaders.
    pose proof (reader_pending (sh_once (shard w url)) offset OffsetCb) as Hne.
    by destruct (filter _ _).
  - intros v'. rewrite deliver_value_clockOffset, deliver_value_readers.
    rewrite no_reader_after_delivery.
    rewrite deliver_value_clockOffset, Hreaders.
    pose proof (reader_pending (sh_once (shard w url)) offset OffsetCb) as Hne.
    by destruct (filter _ _).
Qed.

Lemma auth_refreshes_clock_offset_witness :
  (1 <= length FIREBASE_DATABASES_URL)%nat /\
  is_crc32_digest (Crc32.crc32 "google:1234") = true /\
  exists url,
    In url FIREBASE_DATABASES_URL /\
    let offset := "/.info/serverTimeOffset" in
    let w1 := exec (auth Crc32.crc32 FIREBASE_DATABASES_URL "google:1234" "token")
                (constructor true) in
    outcome (auth Crc32.crc32 FIREBASE_DATABASES_URL "google:1234" "token" (constructor true))
      = Returns tt /\
    effects (auth Crc32.crc32 FIREBASE_DATABASES_URL "google:1234" "token") (constructor true) =
      [E_console_log [JStr "Chose the following Firebase Database Shard:"; JStr url];
       E_new_Firebase url;
       E_assign_firebaseRef (Some url);
       E_authWithOAuthToken url "google" "token";
       E_once_value url offset] /\
    forall result v,
      clockOffset
        (exec (Backend.deliver_value url offset v)
           (exec (Backend.complete_auth url result) w1)) = v /\
      clockOffset
        (exec (Backend.complete_auth url result)
           (exec (Backend.deliver_value url offset v) w1)) = v /\
      forall v',
        clockOffset
          (exec (Backend.deliver_value url offset v')
             (exec (Backend.deliver_value url offset v) w1)) = v.
Proof.
  split; [simpl; lia|]. split; [reflexivity|].
  apply (auth_refreshes_clock_offset Crc32.crc32 FIREBASE_DATABASES_URL
           "google:1234" "token" (constructor true)); [simpl; lia | reflexivity].
Defined.

(** * Further properties of the adapter *)

(** ** Shard selection at its edges *)




(** ** Authentication *)

(** Reading a field of a shard through the setters. *)
Ltac fields :=
  cbn [sh_auth sh_pendingAuth sh_listeners sh_once sh_pendingWrites sh_data
       sh_onDisconnect sh_now set_sh_auth set_sh_pendingAuth set_sh_listeners
       set_sh_once set_sh_pendingWrites set_sh_data set_sh_onDisconnect].

Ltac crank_fields tac := repeat (progress (unfold_ops; norm; fields; tac)).

(** A change of one shard that leaves a field alone leaves it alone in
    every shard. *)
Lemma field_with_shard {B} (field : Shard -> B) url f w url' :
  (forall sh, field (f sh) = field sh) ->
  field (shard (with_shard url f w) url') = field (shard w url').
Proof.
  intros Hf. destruct (decide (url = url')) as [<-|Hne].
  - by rewrite shard_with_shard.
  - by rewrite shard_with_shard_ne.
Qed.

Lemma auth_undefined_shard crc32 databases userId accessToken w :
  _selectShard crc32 databases userId = None ->
  auth crc32 databases userId accessToken w =
  (Throws (SdkError "new Firebase: not a database URL"),
   logged [E_console_log [JStr "Chose the following Firebase Database Shard:"; JUndefined]] w).
Proof. intros Hs. unfold auth. rewrite Hs. cbn [of_optional_string Sdk.new]. crank. reflexivity. Qed.

(** X3.  [auth] tears nothing down: whatever the instance was connected to
    before, the listeners, the data, the credentials and the pending writes
    of every shard, and the clock offset, are what they were.  In
    particular a callback registered before a second [auth] is still called
    afterwards. *)
Theorem auth_keeps_subscriptions crc32 databases userId accessToken w :
  let w' := exec (auth crc32 databases userId accessToken) w in
  clockOffset w' = clockOffset w /\
  (forall url,
     sh_listeners (shard w' url) = sh_listeners (shard w url) /\
     sh_data (shard w' url) = sh_data (shard w url) /\
     sh_auth (shard w' url) = sh_auth (shard w url) /\
     sh_pendingWrites (shard w' url) = sh_pendingWrites (shard w url)) /\
  (forall url path ev snap,
     effects (Backend.raise url path ev snap) w'
     = effects (Backend.raise url path ev snap) w).
Proof.
  intros w'.
  assert (H : clockOffset w' = clockOffset w /\
              forall url,
                sh_listeners (shard w' url) = sh_listeners (shard w url) /\
                sh_data (shard w' url) = sh_data (shard w url) /\
                sh_auth (shard w' url) = sh_auth (shard w url) /\
                sh_pendingWrites (shard w' url) = sh_pendingWrites (shard w url)).
  { subst w'. unfold exec.
    destruct (_selectShard crc32 databases userId) as [chosen|] eqn:Hs.
    - rewrite (auth_world _ _ _ _ _ _ Hs). cbn [snd]. split; [reflexivity|].
      intros url. repeat split.
      all: rewrite field_with_shard by reflexivity; norm.
      all: rewrite field_with_shard by reflexivity; norm; reflexivity.
    - rewrite (auth_undefined_shard _ _ _ _ _ Hs). cbn [snd]. split; [reflexivity|].
      intros url. by norm. }
  destruct H as [Hc Hs]. split; [exact Hc|]. split; [exact Hs|].
  intros url path ev snap. rewrite !effects_raise. unfold Backend.listening.
  destruct (Hs url) as (-> & _). reflexivity.
Qed.

(** The success branch of the callback of [auth], for a reference that
    holds credentials. *)
Lemma bumpLastActivityTimestamp_authed w ref a :
  firebaseRef w = Some ref -> sh_auth (shard w ref) = Some a ->
  _bumpLastActivityTimestamp w =
  (Returns (JPromise (writes w)),
   with_shard ref
     (fun sh =>
        set_sh_pendingWrites
          (sh_pendingWrites sh
             ++ [(writes w, WriteCb (uid a) "last_activity_timestamp" JServerTimestamp)])
          (set_sh_data
             (<[user_path (uid a) "last_activity_timestamp" := JNum (sh_now sh)]> (sh_data sh))
             sh))
     (logged [E_set ref (user_path (uid a) "last_activity_timestamp") JServerTimestamp]
        (with_writes (S (writes w))
           (with_shard ref
              (fun sh =>
                 set_sh_onDisconnect
                   (sh_onDisconnect sh
                      ++ [(user_path (uid a) "last_activity_timestamp", JServerTimestamp)]) sh)
              (logged [E_onDisconnect_set ref (user_path (uid a) "last_activity_timestamp")
                         JServerTimestamp] w))))).
Proof.
  intros Hr Ha. unfold _bumpLastActivityTimestamp.
  unfold bind at 1. rewrite (getAuth_uid_authed _ _ _ Hr Ha).
  unfold bind at 1, deref_firebaseRef at 1. rewrite Hr.
  unfold bind at 1. unfold Sdk.onDisconnect_set at 1. unfold bind at 1, emit at 1, modify_shard at 1.
  cbn beta iota.
  match goal with |- _setFirebaseUserData _ _ ?w1 = _ =>
    assert (Hr1 : firebaseRef w1 = Some ref) by (norm; exact Hr);
    assert (Ha1 : sh_auth (shard w1 ref) = Some a) by (norm; fields; norm; exact Ha)
  end.
  unfold _setFirebaseUserData. unfold bind at 1.
  rewrite isAuthed_eq, (credentials_Some _ _ _ Hr1 Ha1).
  change (truthy (authData_val a)) with true. cbn iota.
  unfold bind at 1. rewrite (getAuth_uid_authed _ _ _ Hr1 Ha1).
  unfold bind at 1, deref_firebaseRef at 1. rewrite Hr1.
  unfold Sdk.set. crank. reflexivity.
Qed.

(** X4.  When the credential exchange of the stored reference succeeds, the
    callback records the last activity twice, as a value the backend will
    write on disconnect and as a write made now, both with the backend's
    own time; it then reports the login to analytics and to the debug log.
    Afterwards the instance is authenticated and the stored last-activity
    value is the backend's clock. *)
Theorem auth_success_bumps_last_activity w url a firebaseShardUrl rest :
  firebaseRef w = Some url ->
  sh_pendingAuth (shard w url) = AuthCb firebaseShardUrl :: rest ->
  let w' := exec (Backend.complete_auth url (inl a)) w in
  let path := user_path (uid a) "last_activity_timestamp" in
  outcome (Backend.complete_auth url (inl a) w) = Returns tt /\
  effects (Backend.complete_auth url (inl a)) w =
    [E_onDisconnect_set url path JServerTimestamp;
     E_set url path JServerTimestamp;
     E_trackEvent "login" "success" (of_optional_string firebaseShardUrl);
     E_debugLog [JStr "Authenticated successfully to Firebase shard";
                 of_optional_string firebaseShardUrl]] /\
  credentials w' = Some a /\
  sh_data (shard w' url) !! path = Some (JNum (sh_now (shard w url))) /\
  sh_onDisconnect (shard w' url) = sh_onDisconnect (shard w url) ++ [(path, JServerTimestamp)] /\
  sh_pendingAuth (shard w' url) = rest.
Proof.
  intros Hr Hp w' path.
  assert (E : Backend.complete_auth url (inl a) w =
              (Returns tt,
               logged [E_debugLog [JStr "Authenticated successfully to Firebase shard";
                                   of_optional_string firebaseShardUrl]]
                 (logged [E_trackEvent "login" "success" (of_optional_string firebaseShardUrl)]
                    (exec _bumpLastActivityTimestamp
                       (with_shard url (set_sh_auth (Some a))
                          (with_shard url (set_sh_pendingAuth rest) w)))))).
  { unfold Backend.complete_auth. unfold bind at 1, gets at 1. rewrite Hp.
    unfold bind at 1, modify_shard at 1. unfold bind at 1, modify_shard at 1.
    unfold auth_callback. cbn [truthy]. unfold exec.
    set (w1 := with_shard url (set_sh_auth (Some a))
                 (with_shard url (set_sh_pendingAuth rest) w)).
    assert (Hr1 : firebaseRef w1 = Some url) by (subst w1; norm; exact Hr).
    assert (Ha1 : sh_auth (shard w1 url) = Some a) by (subst w1; norm; reflexivity).
    unfold bind at 1. rewrite (bumpLastActivityTimestamp_authed _ _ _ Hr1 Ha1).
    crank. reflexivity. }
  subst w'. unfold outcome, exec at 1 2 3 4. 
  split; [by rewrite E|]. split.
  { apply effects_of_trace. unfold exec at 1. rewrite E. cbn [snd]. unfold exec.
    rewrite bumpLastActivityTimestamp_authed with (ref := url) (a := a)
      by (norm; fields; norm; auto).
    cbn [snd]. norm. by rewrite <- !app_assoc. }
  rewrite E. cbn [snd]. unfold exec.
  rewrite bumpLastActivityTimestamp_authed with (ref := url) (a := a)
    by (norm; fields; norm; auto).
  cbn [snd]. unfold credentials. norm. rewrite Hr. norm. fields. norm. fields.
  rewrite lookup_insert_eq. norm. fields. auto.
Qed.

Lemma auth_success_bumps_last_activity_witness :
  firebaseRef Session.authorizing = Some Session.url /\
  sh_pendingAuth (shard Session.authorizing Session.url) = [AuthCb (Some Session.url)] /\
  credentials (exec (Backend.complete_auth Session.url (inl Session.user)) Session.authorizing)
  = Some Session.user.
Proof.
  split; [reflexivity|]. split; [reflexivity|].
  apply (auth_success_bumps_last_activity Session.authorizing Session.url Session.user
           (Some Session.url) []); reflexivity.
Defined.

Lemma complete_auth_failure w url e onComplete rest :
  sh_pendingAuth (shard w url) = onComplete :: rest ->
  Backend.complete_auth url (inr e) w =
  (Returns tt,
   logged [E_trackError "this.firebaseRef.authWithOAuthToken(...)" (error_val e);
           E_debugLog [JStr "Login to Firebase Failed!"; error_val e]]
     (with_shard url (set_sh_pendingAuth rest) w)).
Proof.
  intros Hp. unfold Backend.complete_auth. unfold bind at 1, gets at 1. rewrite Hp.
  unfold bind at 1, modify_shard at 1. unfold auth_callback.
  destruct onComplete as [firebaseShardUrl].
  change (truthy (error_val e)) with true. cbn iota.
  crank. rewrite logged_logged. reflexivity.
Qed.

(** X5.  When the credential exchange fails, the callback reports the error
    to analytics and to the debug log and does nothing else: no write is
    made, no new exchange is started, and the credentials, the reference
    and the data are what they were. *)
Theorem auth_failure_only_reports w url e onComplete rest :
  sh_pendingAuth (shard w url) = onComplete :: rest ->
  let w' := exec (Backend.complete_auth url (inr e)) w in
  outcome (Backend.complete_auth url (inr e) w) = Returns tt /\
  effects (Backend.complete_auth url (inr e)) w =
    [E_trackError "this.firebaseRef.authWithOAuthToken(...)" (error_val e);
     E_debugLog [JStr "Login to Firebase Failed!"; error_val e]] /\
  firebaseRef w' = firebaseRef w /\
  credentials w' = credentials w /\
  forall url',
    sh_data (shard w' url') = sh_data (shard w url') /\
    sh_pendingWrites (shard w' url') = sh_pendingWrites (shard w url').
Proof.
  intros Hp w'. subst w'. pose proof (complete_auth_failure w url e onComplete rest Hp) as E.
  unfold outcome. split; [by rewrite E|]. split.
  { apply effects_of_trace. unfold exec. rewrite E. cbn [snd]. by norm. }
  unfold exec. rewrite E. cbn [snd]. split; [reflexivity|]. split.
  - unfold credentials. norm. destruct (firebaseRef w) as [ref|]; [|reflexivity].
    norm. by rewrite (field_with_shard sh_auth).
  - intros url'. norm.
    by rewrite (field_with_shard sh_data), (field_with_shard sh_pendingWrites).
Qed.

Lemma auth_failure_only_reports_witness :
  sh_pendingAuth (shard Session.authorizing Session.url) = [AuthCb (Some Session.url)] /\
  credentials
    (exec (Backend.complete_auth Session.url (inr {| code := "EXPIRED_TOKEN" |}))
       Session.authorizing)
  = credentials Session.authorizing.
Proof.
  split; [reflexivity|].
  assert (Hp : sh_pendingAuth (shard Session.authorizing Session.url)
               = [AuthCb (Some Session.url)]) by (vm_compute; reflexivity).
  destruct (auth_failure_only_reports Session.authorizing Session.url
              {| code := "EXPIRED_TOKEN" |} (AuthCb (Some Session.url)) [] Hp)
    as (_ & _ & _ & H & _).
  exact H.
Defined.

(** X6.  The success branch of the callback dereferences the stored
    reference: when the reference has been cleared in the meantime, the
    callback throws at [this.firebaseRef.getAuth()] before any write and
    before the login is reported. *)
Theorem auth_success_without_reference_throws w url a onComplete rest :
  firebaseRef w = None ->
  sh_pendingAuth (shard w url) = onComplete :: rest ->
  outcome (Backend.complete_auth url (inl a) w)
    = Throws (TypeError "this.firebaseRef is null") /\
  effects (Backend.complete_auth url (inl a)) w = [].
Proof.
  intros Hr Hp.
  assert (E : Backend.complete_auth url (inl a) w =
              (Throws (TypeError "this.firebaseRef is null"),
               with_shard url (set_sh_auth (Some a))
                 (with_shard url (set_sh_pendingAuth rest) w))).
  { unfold Backend.complete_auth. unfold bind at 1, gets at 1. rewrite Hp.
    unfold bind at 1, modify_shard at 1. unfold bind at 1, modify_shard at 1.
    unfold auth_callback. destruct onComplete as [firebaseShardUrl]. cbn [truthy].
    unfold _bumpLastActivityTimestamp, getAuth_uid.
    crank_with ltac:(rewrite ?Hr). reflexivity. }
  unfold outcome. split; [by rewrite E|].
  apply effects_of_trace. unfold exec. rewrite E. cbn [snd]. norm. by rewrite app_nil_r.
Qed.

Lemma auth_success_without_reference_throws_witness :
  let w := exec unAuth
             (exec (auth Crc32.crc32 FIREBASE_DATABASES_URL "google:1234" "token")
                Session.signed_in) in
  firebaseRef w = None /\
  sh_pendingAuth (shard w Session.url) = [AuthCb (Some Session.url)] /\
  outcome (Backend.complete_auth Session.url (inl Session.user) w)
    = Throws (TypeError "this.firebaseRef is null").
Proof.
  intros w.
  assert (Hr : firebaseRef w = None) by (vm_compute; reflexivity).
  assert (Hp : sh_pendingAuth (shard w Session.url) = [AuthCb (Some Session.url)])
    by (vm_compute; reflexivity).
  split; [exact Hr|]. split; [exact Hp|].
  apply (auth_success_without_reference_throws w Session.url Session.user
           (AuthCb (Some Session.url)) [] Hr Hp).
Defined.

(** ** Writes *)

Lemma append_inj_r s a b : s +:+ a = s +:+ b -> a = b.
Proof. induction s as [|c s IH]; cbn; [auto | intros [= H]; auto]. Qed.

Lemma user_path_inj userId attribute attribute' :
  user_path userId attribute = user_path userId attribute' -> attribute = attribute'.
Proof. unfold user_path. intros H. by do 3 apply append_inj_r in H. Qed.

(** Each mutation method writes one key. *)
Lemma mutate_one_key m w :
  exists v,
    mutate m w = _updateFirebaseUserData (mutation_attribute m) (<[mutation_key m := v]> ∅) w.
Proof.
  destruct m; cbn [mutate mutation_attribute mutation_key];
    unfold toggleSession, markSessionRated, markVideoAsViewed, addGcmId;
    try (unfold bind at 1; rewrite write_timestamp_eq); eauto.
Qed.







(** X9.  A mutation call, authenticated or not, never changes the
    authentication state, the clock offset or the subscriptions: the
    reference, the offset and, on every shard, the credentials, the
    listeners and the pending reads are what they were. *)
Theorem mutation_keeps_session w m :
  let w' := exec (mutate m) w in
  firebaseRef w' = firebaseRef w /\
  clockOffset w' = clockOffset w /\
  credentials w' = credentials w /\
  forall url,
    sh_auth (shard w' url) = sh_auth (shard w url) /\
    sh_listeners (shard w' url) = sh_listeners (shard w url) /\
    sh_once (shard w' url) = sh_once (shard w url).
Proof.
  intros w'.
  assert (H : firebaseRef w' = firebaseRef w /\ clockOffset w' = clockOffset w /\
              forall url,
                sh_auth (shard w' url) = sh_auth (shard w url) /\
                sh_listeners (shard w' url) = sh_listeners (shard w url) /\
                sh_once (shard w' url) = sh_once (shard w url)).
  { subst w'. destruct (mutate_one_key m w) as [v E]. unfold exec. rewrite E.
    destruct (credentials w) as [a|] eqn:Hc.
    - apply credentials_Some_inv in Hc as (ref & Hr & Ha).
      rewrite (updateFirebaseUserData_authed _ _ _ _ _ Hr Ha). cbn [snd].
      split; [reflexivity|]. split; [reflexivity|]. intros url.
      rewrite (field_with_shard sh_auth), (field_with_shard sh_listeners),
        (field_with_shard sh_once) by reflexivity.
      by norm.
    - rewrite (updateFirebaseUserData_unauthed _ _ _ Hc). cbn [snd]. by norm. }
  destruct H as (Hr & Ho & Hs). repeat split; try assumption; try apply Hs.
  unfold credentials. rewrite Hr. destruct (firebaseRef w) as [ref|]; [apply Hs | reflexivity].
Qed.





(** ** Signing out *)

Lemma unAuth_cases w :
  (firebaseRef w = None /\ unAuth w = (Returns tt, w)) \/
  (exists ref, firebaseRef w = Some ref /\ sh_auth (shard w ref) = None /\
               unAuth w = (Throws (TypeError "this.firebaseRef.getAuth() is null"), w)) \/
  (exists ref a, firebaseRef w = Some ref /\ sh_auth (shard w ref) = Some a /\
                 outcome (unAuth w) = Returns tt /\ firebaseRef (exec unAuth w) = None).
Proof.
  destruct (firebaseRef w) as [ref|] eqn:Hr.
  - destruct (sh_auth (shard w ref)) as [a|] eqn:Ha.
    + right. right. exists ref, a. unfold outcome, exec.
      rewrite (unAuth_authed_world w ref a Hr Ha). repeat split; try assumption; reflexivity.
    + right. left. exists ref. repeat split; try assumption.
      exact (unAuth_without_credentials_throws w ref Hr Ha).
  - left. split; [reflexivity|]. unfold unAuth, bind, gets. by rewrite Hr.
Qed.

Lemma credentials_after_unAuth w : credentials (exec unAuth w) = None.
Proof.
  unfold credentials.
  destruct (unAuth_cases w) as [(Hr & E)|[(ref & Hr & Ha & E)|(ref & a & _ & _ & _ & Hr')]].
  - unfold exec. rewrite E. cbn [snd]. by rewrite Hr.
  - unfold exec. rewrite E. cbn [snd]. by rewrite Hr, Ha.
  - by rewrite Hr'.
Qed.

(** X12.  [unAuth] is idempotent: a second call in a row leaves the world
    the first call left, and it makes no call of its own, whether the first
    call returned or threw. *)
Theorem unAuth_twice w :
  exec unAuth (exec unAuth w) = exec unAuth w /\
  effects unAuth (exec unAuth w) = [].
Proof.
  assert (Hnone : forall w0, firebaseRef w0 = None -> unAuth w0 = (Returns tt, w0)).
  { intros w0 H0. unfold unAuth, bind, gets. by rewrite H0. }
  assert (H : exec unAuth (exec unAuth w) = exec unAuth w).
  { destruct (unAuth_cases w) as [(Hr & E)|[(ref & Hr & Ha & E)|(ref & a & _ & _ & Ho & Hr')]].
    - unfold exec. rewrite E. cbn [snd]. by rewrite E.
    - unfold exec. rewrite E. cbn [snd]. by rewrite E.
    - unfold exec at 1. by rewrite (Hnone _ Hr'). }
  split; [exact H|]. unfold effects. rewrite H. by rewrite drop_all.
Qed.

(** X13.  [unAuth] detaches the two named locations and nothing else: for
    an authenticated instance the clock offset, the data, the pending
    writes and reads, the value armed for disconnection and the listeners
    of every other location are what they were. *)
Theorem unAuth_keeps_the_rest w ref a :
  firebaseRef w = Some ref ->
  sh_auth (shard w ref) = Some a ->
  let w' := exec unAuth w in
  clockOffset w' = clockOffset w /\
  (forall url,
     sh_data (shard w' url) = sh_data (shard w url) /\
     sh_pendingWrites (shard w' url) = sh_pendingWrites (shard w url) /\
     sh_once (shard w' url) = sh_once (shard w url) /\
     sh_onDisconnect (shard w' url) = sh_onDisconnect (shard w url)) /\
  (forall path ev,
     path <> user_path (uid a) "my_sessions" ->
     path <> user_path (uid a) "feedback" ->
     Backend.listening (shard w' ref) path ev = Backend.listening (shard w ref) path ev).
Proof.
  intros Hr Ha w'. subst w'. unfold exec at 1 2 3 4 5 6.
  rewrite (unAuth_authed_world w ref a Hr Ha). cbn [snd]. rewrite !off_world.
  split; [reflexivity|]. split.
  - intros url. norm.
    rewrite (field_with_shard sh_data), (field_with_shard sh_pendingWrites),
      (field_with_shard sh_once), (field_with_shard sh_onDisconnect) by reflexivity.
    norm.
    rewrite (field_with_shard sh_data), (field_with_shard sh_pendingWrites),
      (field_with_shard sh_once), (field_with_shard sh_onDisconnect) by reflexivity.
    norm.
    rewrite (field_with_shard sh_data), (field_with_shard sh_pendingWrites),
      (field_with_shard sh_once), (field_with_shard sh_onDisconnect) by reflexivity.
    by norm.
  - intros path ev Hs Hf. norm. unfold Backend.listening. fields. f_equal.
    rewrite !list_filter_filter. apply list_filter_iff. intros [[p e] h]. cbn [fst snd].
    split; [tauto|]. intros H. repeat split; try exact H.
    + apply andb_prop_elim in H as [Hp _]. apply Is_true_true, String.eqb_eq in Hp. subst p.
      apply Is_true_true, negb_true_iff, String.eqb_neq. exact Hf.
    + apply andb_prop_elim in H as [Hp _]. apply Is_true_true, String.eqb_eq in Hp. subst p.
      apply Is_true_true, negb_true_iff, String.eqb_neq. exact Hs.
Qed.

Lemma unAuth_keeps_the_rest_witness :
  firebaseRef Session.bookmarked = Some Session.url /\
  sh_auth (shard Session.bookmarked Session.url) = Some Session.user /\
  clockOffset (exec unAuth Session.bookmarked) = clockOffset Session.bookmarked.
Proof.
  assert (Hr : firebaseRef Session.bookmarked = Some Session.url) by (vm_compute; reflexivity).
  assert (Ha : sh_auth (shard Session.bookmarked Session.url) = Some Session.user)
    by (vm_compute; reflexivity).
  split; [exact Hr|]. split; [exact Ha|].
  exact (proj1 (unAuth_keeps_the_rest Session.bookmarked Session.url Session.user Hr Ha)).
Defined.

(** X14.  After [unAuth] the callbacks registered through the two subscribe
    methods are no longer called: an event raised on the location finds no
    handler. *)
Theorem unAuth_silences_subscriptions w ref a s :
  firebaseRef w = Some ref ->
  sh_auth (shard w ref) = Some a ->
  forall ev snap,
    effects (Backend.raise ref (user_path (uid a) (subscription_attribute s)) ev snap)
      (exec unAuth (exec (subscribe s) w)) = [].
Proof.
  intros Hr Ha ev snap. rewrite subscribe_eq.
  destruct (registerToUpdates_keeps (subscription_attribute s) (subscription_callback s)
              w ref a Hr Ha) as (Hr' & Ha' & _).
  rewrite effects_raise. unfold exec at 1.
  rewrite (unAuth_authed_world _ ref a Hr' Ha'). cbn [snd]. rewrite !off_world. norm.
  unfold Backend.listening. fields.
  destruct s; cbn [subscription_attribute].
  - rewrite filter_other_path_comm, listening_after_off. reflexivity.
  - rewrite listening_after_off. reflexivity.
Qed.

Lemma unAuth_silences_subscriptions_witness :
  firebaseRef Session.bookmarked = Some Session.url /\
  sh_auth (shard Session.bookmarked Session.url) = Some Session.user /\
  effects
    (Backend.raise Session.url
       (user_path (uid Session.user) (subscription_attribute (RegisterToSessionUpdates 1%nat)))
       child_removed {| snap_key := "abc"; snap_val := JNull |})
    (exec unAuth (exec (subscribe (RegisterToSessionUpdates 1%nat)) Session.bookmarked)) = [].
Proof.
  assert (Hr : firebaseRef Session.bookmarked = Some Session.url) by (vm_compute; reflexivity).
  assert (Ha : sh_auth (shard Session.bookmarked Session.url) = Some Session.user)
    by (vm_compute; reflexivity).
  split; [exact Hr|]. split; [exact Ha|].
  exact (unAuth_silences_subscriptions Session.bookmarked Session.url Session.user
           (RegisterToSessionUpdates 1%nat) Hr Ha child_removed
           {| snap_key := "abc"; snap_val := JNull |}).
Defined.

(** X15.  After [unAuth], however it ended, every mutation and every
    subscribe call is dropped: it returns [undefined], logs, and changes
    nothing else, until [auth] is called again. *)
Theorem calls_after_unAuth_are_dropped w :
  let w' := exec unAuth w in
  (forall m,
     mutate m w' =
     (Returns JUndefined,
      logged [E_debugLog [JStr "Trying to write to Firebase while not authorized."]] w')) /\
  (forall s,
     subscribe s w' =
     (Returns tt,
      logged [E_debugLog [JStr "Trying to subscribe to Firebase while not authorized."]] w')).
Proof.
  intros w'. pose proof (credentials_after_unAuth w) as Hc. fold w' in Hc. split.
  - intros m. destruct (mutate_eq m w') as [value ->].
    by apply updateFirebaseUserData_unauthed.
  - intros s. rewrite subscribe_eq. unfold _registerToUpdates. unfold bind at 1.
    rewrite isAuthed_eq, Hc. cbn [truthy]. crank. reflexivity.
Qed.

(** ** Subscriptions and presence *)

(** X16.  A subscription is scoped to its location: after a subscribe call
    by an authenticated instance, an event raised on any other location
    (another attribute of the user, another user, another shard) calls
    exactly the callbacks it called before; the call writes no data and
    changes neither the credentials nor the clock offset. *)
Theorem subscription_is_scoped w ref a s :
  firebaseRef w = Some ref ->
  sh_auth (shard w ref) = Some a ->
  let w' := exec (subscribe s) w in
  (forall path ev snap,
     path <> user_path (uid a) (subscription_attribute s) ->
     effects (Backend.raise ref path ev snap) w' = effects (Backend.raise ref path ev snap) w) /\
  (forall attribute ev snap,
     attribute <> subscription_attribute s ->
     effects (Backend.raise ref (user_path (uid a) attribute) ev snap) w'
     = effects (Backend.raise ref (user_path (uid a) attribute) ev snap) w) /\
  (forall url path ev snap,
     url <> ref ->
     effects (Backend.raise url path ev snap) w' = effects (Backend.raise url path ev snap) w) /\
  (forall url, sh_data (shard w' url) = sh_data (shard w url)) /\
  credentials w' = credentials w /\
  clockOffset w' = clockOffset w.
Proof.
  intros Hr Ha w'. subst w'. rewrite subscribe_eq.
  set (attribute := subscription_attribute s).
  set (callback := subscription_callback s).
  pose proof (registerToUpdates_authed attribute callback w ref a Hr Ha) as E.
  assert (Hpath : forall path ev snap,
            path <> user_path (uid a) attribute ->
            effects (Backend.raise ref path ev snap) (exec (_registerToUpdates attribute callback) w)
            = effects (Backend.raise ref path ev snap) w).
  { intros path ev snap Hne. rewrite !effects_raise. f_equal.
    unfold exec at 1. rewrite E. cbn [snd]. rewrite !on_world. norm.
    unfold Backend.listening. fields. f_equal.
    rewrite <- !app_assoc, filter_app. cbn [app].
    assert (Hno : String.eqb (user_path (uid a) attribute) path = false)
      by (apply String.eqb_neq; congruence).
    rewrite !filter_cons, filter_nil. cbn [fst snd]. rewrite Hno. cbn.
    by rewrite app_nil_r. }
  split; [exact Hpath|]. split.
  { intros attribute' ev snap Hne. apply Hpath. intros Heq.
    apply user_path_inj in Heq. contradiction. }
  split.
  { intros url path ev snap Hne. rewrite !effects_raise. f_equal.
    unfold exec. rewrite E. cbn [snd]. unfold exec. unfold Sdk.on. crank.
    rewrite !shard_with_shard_ne by congruence. norm.
    rewrite !shard_with_shard_ne by congruence. norm.
    rewrite !shard_with_shard_ne by congruence. by norm. }
  unfold exec. rewrite E. cbn [snd]. rewrite !on_world. split.
  { intros url.
    rewrite (field_with_shard sh_data) by reflexivity. norm.
    rewrite (field_with_shard sh_data) by reflexivity. norm.
    rewrite (field_with_shard sh_data) by reflexivity. by norm. }
  split; [|reflexivity].
  unfold credentials. norm. rewrite Hr. norm. fields. norm. fields. norm. reflexivity.
Qed.

Lemma subscription_is_scoped_witness :
  firebaseRef Session.bookmarked = Some Session.url /\
  sh_auth (shard Session.bookmarked Session.url) = Some Session.user /\
  effects
    (Backend.raise Session.url (user_path (uid Session.user) "my_sessions") child_removed
       {| snap_key := "abc"; snap_val := JNull |})
    (exec (subscribe (RegisterToFeedbackUpdates 1%nat)) Session.bookmarked)
  = effects
      (Backend.raise Session.url (user_path (uid Session.user) "my_sessions") child_removed
         {| snap_key := "abc"; snap_val := JNull |})
      Session.bookmarked.
Proof.
  assert (Hr : firebaseRef Session.bookmarked = Some Session.url) by (vm_compute; reflexivity).
  assert (Ha : sh_auth (shard Session.bookmarked Session.url) = Some Session.user)
    by (vm_compute; reflexivity).
  split; [exact Hr|]. split; [exact Ha|].
  destruct (subscription_is_scoped Session.bookmarked Session.url Session.user
              (RegisterToFeedbackUpdates 1%nat) Hr Ha) as (_ & H & _).
  apply (H "my_sessions"). discriminate.
Defined.

(** X17.  Presence follows the page: when the listener is installed, hiding
    the page calls [Firebase.goOffline()] and showing it calls
    [Firebase.goOnline()], each followed by one debug-log entry; when the
    document has no [hidden] property nothing happens.  In no case is the
    reference, the clock offset or any shard changed, so that the instance
    is as authenticated afterwards as it was before. *)
Theorem visibility_only_toggles_connection w document_hidden :
  on_visibilitychange document_hidden w =
  (Returns tt,
   if visibilityListener w
   then logged (if document_hidden
                then [E_goOffline; E_debugLog [JStr "Firebase went offline."]]
                else [E_goOnline; E_debugLog [JStr "Firebase back online!"]]) w
   else w) /\
  shards (exec (on_visibilitychange document_hidden) w) = shards w /\
  credentials (exec (on_visibilitychange document_hidden) w) = credentials w /\
  clockOffset (exec (on_visibilitychange document_hidden) w) = clockOffset w.
Proof.
  assert (E : on_visibilitychange document_hidden w =
              (Returns tt,
               if visibilityListener w
               then logged (if document_hidden
                            then [E_goOffline; E_debugLog [JStr "Firebase went offline."]]
                            else [E_goOnline; E_debugLog [JStr "Firebase back online!"]]) w
               else w)).
  { unfold on_visibilitychange. destruct (visibilityListener w); [|reflexivity].
    destruct document_hidden; unfold goOffline, goOnline; crank;
      rewrite logged_logged; reflexivity. }
  split; [exact E|]. unfold exec. rewrite E. cbn [snd].
  destruct (visibilityListener w); repeat split; reflexivity.
Qed.

(** X18.  Before the instance holds credentials, [unAuth] fails: right
    after [auth], and still after the credential exchange has failed,
    [unAuth] throws at [this.firebaseRef.getAuth().uid]; nothing is
    detached or revoked and the reference stays stored. *)
Theorem unAuth_before_credentials_throws crc32 databases userId accessToken w e :
  (1 <= length databases)%nat ->
  is_crc32_digest (crc32 userId) = true ->
  (forall url, In url databases -> sh_auth (shard w url) = None) ->
  exists url,
    let w1 := exec (auth crc32 databases userId accessToken) w in
    let w2 := exec (Backend.complete_auth url (inr e)) w1 in
    firebaseRef w1 = Some url /\
    unAuth w1 = (Throws (TypeError "this.firebaseRef.getAuth() is null"), w1) /\
    firebaseRef w2 = Some url /\
    unAuth w2 = (Throws (TypeError "this.firebaseRef.getAuth() is null"), w2).
Proof.
  intros Hlen Hd Hnone.
  destruct (selectShard_configured crc32 databases userId Hlen Hd) as (url & Hs & Hin).
  exists url. intros w1 w2.
  pose proof (auth_world crc32 databases userId accessToken url w Hs) as E.
  assert (Hr1 : firebaseRef w1 = Some url) by (subst w1; unfold exec; rewrite E; reflexivity).
  assert (Ha1 : sh_auth (shard w1 url) = None).
  { subst w1. unfold exec. rewrite E. cbn [snd]. norm. fields. norm. fields. auto. }
  split; [exact Hr1|]. split; [exact (unAuth_without_credentials_throws w1 url Hr1 Ha1)|].
  assert (Hp1 : exists onComplete rest, sh_pendingAuth (shard w1 url) = onComplete :: rest).
  { subst w1. unfold exec. rewrite E. cbn [snd]. norm. fields. norm. fields.
    destruct (sh_pendingAuth (shard w url)); cbn [app]; eauto. }
  destruct Hp1 as (onComplete & rest & Hp1).
  pose proof (complete_auth_failure w1 url e _ _ Hp1) as F.
  assert (Hr2 : firebaseRef w2 = Some url) by (subst w2; unfold exec; rewrite F; exact Hr1).
  assert (Ha2 : sh_auth (shard w2 url) = None).
  { subst w2. unfold exec. rewrite F. cbn [snd]. norm. fields. exact Ha1. }
  split; [exact Hr2 | exact (unAuth_without_credentials_throws w2 url Hr2 Ha2)].
Qed.

Lemma unAuth_before_credentials_throws_witness :
  (1 <= length FIREBASE_DATABASES_URL)%nat /\
  is_crc32_digest (Crc32.crc32 "google:1234") = true /\
  (forall url, In url FIREBASE_DATABASES_URL -> sh_auth (shard (constructor true) url) = None) /\
  exists url,
    let w1 := exec (auth Crc32.crc32 FIREBASE_DATABASES_URL "google:1234" "token")
                (constructor true) in
    let w2 := exec (Backend.complete_auth url (inr {| code := "EXPIRED_TOKEN" |})) w1 in
    firebaseRef w1 = Some url /\
    unAuth w1 = (Throws (TypeError "this.firebaseRef.getAuth() is null"), w1) /\
    firebaseRef w2 = Some url /\
    unAuth w2 = (Throws (TypeError "this.firebaseRef.getAuth() is null"), w2).
Proof.
  split; [simpl; lia|]. split; [reflexivity|]. split; [intros url _; reflexivity|].
  apply (unAuth_before_credentials_throws Crc32.crc32 FIREBASE_DATABASES_URL "google:1234"
           "token" (constructor true) {| code := "EXPIRED_TOKEN" |});
    [simpl; lia | reflexivity | intros url _; reflexivity].
Defined.
